(** * PromoOpción → Shopify catalogue synchronisation: model and properties

    A shallow embedding of the three Python modules of the repository

      - [promooption_client.py]  (the supplier source),
      - [shopify_client.py]      (the destination sink client),
      - [sync_manager.py]        (the reconciler / orchestrator),

    followed by the properties of the reconciliation that the specification
    states.  Python floats are IEEE-754 binary64 numbers and are modelled by
    Rocq's primitive floats; Python dictionaries keep insertion order and are
    modelled by association lists; Python sets are modelled by [gset], and
    the order in which a set is listed is left open ([Py.SetOrder]). *)

From Stdlib Require Import ZArith String Ascii List Bool Lia.
From Stdlib Require Import Floats.
From stdpp Require Import gmap strings list.

#[global] Set Warnings "-inexact-float,-clear-no-such-hyp".
#[global] Set Default Proof Using "Type".

(* ===================================================================== *)
(** ** The fragment of the Python runtime the code relies on              *)
(* ===================================================================== *)

Module Py.

(** Exceptions, all of them subclasses of [Exception].  [OtherError]
    stands for any other exception class: a plain [Exception(msg)] and
    whatever a third-party library (requests, the Shopify API bindings,
    json) raises. *)
Inductive exn : Type :=
| ValueError
| TypeError
| OverflowError
| KeyError
| AttributeError
| OtherError (msg : string).

(** A decoded JSON value, as far as the code inspects it.  [VContainer]
    stands for a list or an object. *)
Inductive value : Type :=
| VNone
| VBool (b : bool)
| VInt (z : Z)
| VFloat (f : float)
| VStr (s : string)
| VContainer.

(** *** Text helpers *)

Definition is_digit (c : ascii) : bool :=
  let n := nat_of_ascii c in (48 <=? n)%nat && (n <=? 57)%nat.

Definition digit_val (c : ascii) : N := N.of_nat (nat_of_ascii c - 48).

(** C-locale white space, the characters [float()] strips from an ASCII
    string: tab, line feed, vertical tab, form feed, carriage return and
    space. *)
Definition is_space (c : ascii) : bool :=
  let n := nat_of_ascii c in ((9 <=? n)%nat && (n <=? 13)%nat) || (n =? 32)%nat.

Definition lower (c : ascii) : ascii :=
  let n := nat_of_ascii c in
  if (65 <=? n)%nat && (n <=? 90)%nat then ascii_of_nat (n + 32) else c.

Fixpoint lstrip (l : list ascii) : list ascii :=
  match l with
  | c :: r => if is_space c then lstrip r else l
  | [] => []
  end.

Definition strip (l : list ascii) : list ascii :=
  rev (lstrip (rev (lstrip l))).

Definition chars_eqb (a b : list ascii) : bool :=
  String.eqb (string_of_list_ascii a) (string_of_list_ascii b).

(** Decimal digits of a natural number, most significant first.  The fuel
    bounds the number of digits; [N.size_nat n] binary digits always
    suffice. *)
Fixpoint digits_fuel (fuel : nat) (n : N) (acc : list ascii) : list ascii :=
  match fuel with
  | O => acc
  | S fuel' =>
      let d := ascii_of_N (48 + n mod 10) in
      if (n <? 10)%N then d :: acc else digits_fuel fuel' (n / 10)%N (d :: acc)
  end.

Definition digits (n : N) : list ascii := digits_fuel (S (N.size_nat n)) n [].

(** [str(n)] for a non-negative integer. *)
Definition str_of_N (n : N) : string := string_of_list_ascii (digits n).

(** *** [float(x)] *)

(** [int] to [float]: round to nearest, ties to even; too large a value
    raises [OverflowError]. *)
Definition float_of_int (z : Z) : exn + float :=
  match binary_normalize prec emax z 0 false with
  | S754_infinity _ => inl OverflowError
  | sf => inr (SF2Prim sf)
  end.

(** The value [m * 10^e10], correctly rounded (what [strtod] returns;
    overflow gives an infinity, underflow a zero, neither is an error). *)
Definition float_of_decimal (neg : bool) (m : N) (e10 : Z) : float :=
  match m with
  | N0 => SF2Prim (S754_zero neg)
  | Npos p =>
      if (0 <=? e10)%Z then
        SF2Prim (binary_round prec emax neg (p * Z.to_pos (10 ^ e10))%positive 0)
      else
        let '(q, e, loc) := SFdiv_core_binary prec emax (Zpos p) 0 (10 ^ (- e10)) 0 in
        SF2Prim (binary_round_aux prec emax neg q e loc)
  end.

(** Underscores in a numeric literal: each one must stand between two
    digits; they are then dropped. *)
Fixpoint drop_underscores (prev : option ascii) (l : list ascii) : option (list ascii) :=
  match l with
  | [] =>
      match prev with
      | Some "_"%char => None
      | _ => Some []
      end
  | c :: r =>
      if Ascii.eqb c "_" then
        match prev with
        | Some p => if is_digit p then drop_underscores (Some c) r else None
        | None => None
        end
      else
        match prev with
        | Some "_"%char =>
            if is_digit c then option_map (cons c) (drop_underscores (Some c) r) else None
        | _ => option_map (cons c) (drop_underscores (Some c) r)
        end
  end.

(** Reads a (possibly empty) run of digits: its value continuing from
    [acc], how many digits were read, and the rest of the input. *)
Fixpoint read_digits (l : list ascii) (acc : N) (count : nat) : N * nat * list ascii :=
  match l with
  | c :: r => if is_digit c then read_digits r (acc * 10 + digit_val c)%N (S count)
              else (acc, count, l)
  | [] => (acc, count, [])
  end.

Definition read_sign (l : list ascii) : bool * list ascii :=
  match l with
  | "-"%char :: r => (true, r)
  | "+"%char :: r => (false, r)
  | _ => (false, l)
  end.

(** The optional exponent part: [e] or [E], an optional sign, at least one
    digit.  [None] when the text is not of that shape. *)
Definition read_exponent (l : list ascii) : option Z :=
  match l with
  | [] => Some 0%Z
  | c :: r =>
      if Ascii.eqb (lower c) "e" then
        let '(neg, r1) := read_sign r in
        match read_digits r1 0 0 with
        | (_, O, _) => None
        | (v, S _, []) => Some (if neg then - Z.of_N v else Z.of_N v)%Z
        | (_, S _, _ :: _) => None
        end
      else None
  end.

(** *** Text beyond ASCII

    A text is kept as its UTF-8 encoding.  When a text is not all ASCII,
    [float()] first rewrites it code point by code point: a code point
    below 127 stays, a Unicode white space becomes a space, a Unicode
    decimal digit becomes the ASCII digit of its value, and the text is cut
    with a [?] at the first other code point.  The two tables are those of
    Unicode 14.0, the database of Python 3.11. *)

Definition is_ascii_byte (c : ascii) : bool := (nat_of_ascii c <? 128)%nat.

(** The six payload bits of a continuation byte. *)
Definition continuation (c : ascii) : option N :=
  let n := N_of_ascii c in
  if (128 <=? n)%N && (n <? 192)%N then Some (n - 128)%N else None.

(** Stands for a byte sequence that encodes no code point. *)
Definition no_code_point : N := 1114112.

Fixpoint utf8_decode (l : list ascii) : list N :=
  match l with
  | [] => []
  | c :: r =>
      let n := N_of_ascii c in
      if (n <? 128)%N then n :: utf8_decode r
      else if (194 <=? n)%N && (n <? 224)%N then
        match r with
        | c1 :: r1 =>
            match continuation c1 with
            | Some a => ((n - 192) * 64 + a)%N :: utf8_decode r1
            | None => no_code_point :: utf8_decode r
            end
        | [] => [no_code_point]
        end
      else if (224 <=? n)%N && (n <? 240)%N then
        match r with
        | c1 :: c2 :: r2 =>
            match continuation c1, continuation c2 with
            | Some a, Some b =>
                let cp := ((n - 224) * 4096 + a * 64 + b)%N in
                (if (2048 <=? cp)%N && negb ((55296 <=? cp)%N && (cp <? 57344)%N)
                 then cp else no_code_point) :: utf8_decode r2
            | _, _ => no_code_point :: utf8_decode r
            end
        | _ => no_code_point :: utf8_decode r
        end
      else if (240 <=? n)%N && (n <? 245)%N then
        match r with
        | c1 :: c2 :: c3 :: r3 =>
            match continuation c1, continuation c2, continuation c3 with
            | Some a, Some b, Some d =>
                let cp := ((n - 240) * 262144 + a * 4096 + b * 64 + d)%N in
                (if (65536 <=? cp)%N && (cp <? 1114112)%N then cp else no_code_point)
                  :: utf8_decode r3
            | _, _, _ => no_code_point :: utf8_decode r
            end
        | _ => no_code_point :: utf8_decode r
        end
      else no_code_point :: utf8_decode r
  end.

(** The white space of Unicode beyond ASCII ([str.isspace]). *)
Definition unicode_spaces : list N :=
  [133; 160; 5760; 8192; 8193; 8194; 8195; 8196; 8197; 8198; 8199; 8200; 8201; 8202;
   8232; 8233; 8239; 8287; 12288]%N.

(** The decimal digits of Unicode ([str.isdecimal]) come in runs of ten,
    from the digit zero of a script to its digit nine; these are the
    zeros. *)
Definition decimal_zeros : list N :=
  [48; 1632; 1776; 1984; 2406; 2534; 2662; 2790; 2918; 3046; 3174; 3302; 3430; 3558;
   3664; 3792; 3872; 4160; 4240; 6112; 6160; 6470; 6608; 6784; 6800; 6992; 7088; 7232;
   7248; 42528; 43216; 43264; 43472; 43504; 43600; 44016; 65296; 66720; 68912; 69734;
   69872; 69942; 70096; 70384; 70736; 70864; 71248; 71360; 71472; 71904; 72016; 72784;
   73040; 73120; 92768; 92864; 93008; 120782; 120792; 120802; 120812; 120822; 123200;
   123632; 125264; 130032]%N.

Definition is_unicode_space (cp : N) : bool := existsb (N.eqb cp) unicode_spaces.

Definition unicode_decimal (cp : N) : option N :=
  match List.find (λ zero, (zero <=? cp)%N && (cp <? zero + 10)%N) decimal_zeros with
  | Some zero => Some (cp - zero)%N
  | None => None
  end.

Fixpoint to_ascii_decimal_space (cps : list N) : list ascii :=
  match cps with
  | [] => []
  | ch :: r =>
      if (ch <? 127)%N then ascii_of_N ch :: to_ascii_decimal_space r
      else if is_unicode_space ch then " "%char :: to_ascii_decimal_space r
      else
        match unicode_decimal ch with
        | Some d => ascii_of_N (48 + d) :: to_ascii_decimal_space r
        | None => ["?"%char]
        end
  end.

(** The characters [float()] goes on to read. *)
Definition transformed (s : string) : list ascii :=
  let bytes := list_ascii_of_string s in
  if forallb is_ascii_byte bytes then bytes
  else to_ascii_decimal_space (utf8_decode bytes).

(** [float(s)] for a text [s]: [None] is [ValueError]. *)
Definition float_of_str (s : string) : option float :=
  match drop_underscores None (transformed s) with
  | None => None
  | Some l0 =>
      let '(neg, l) := read_sign (strip l0) in
      let low := map lower l in
      if chars_eqb low (list_ascii_of_string "inf")
         || chars_eqb low (list_ascii_of_string "infinity")
      then Some (if neg then neg_infinity else infinity)
      else if chars_eqb low (list_ascii_of_string "nan") then Some nan
      else
        let '(ip, ic, l1) := read_digits l 0 0 in
        let '(m, fc, l2) :=
          match l1 with
          | "."%char :: r => let '(m, fc, l2) := read_digits r ip 0 in (m, fc, l2)
          | _ => (ip, O, l1)
          end in
        match (ic + fc)%nat with
        | O => None
        | S _ =>
            match read_exponent l2 with
            | None => None
            | Some e => Some (float_of_decimal neg m (e - Z.of_nat fc))
            end
        end
  end.

(** The built-in [float(x)]. *)
Definition float_of (x : value) : exn + float :=
  match x with
  | VNone => inl TypeError
  | VBool b => inr (if b then 1 else 0)%float
  | VInt z => float_of_int z
  | VFloat f => inr f
  | VStr s =>
      match float_of_str s with
      | Some f => inr f
      | None => inl ValueError
      end
  | VContainer => inl TypeError
  end.

(** *** [f"{x:.2f}"] *)

Definition pad2 (n : N) : list ascii :=
  if (n <? 10)%N then "0"%char :: digits n else digits n.

(** [m * 2^e * 100] rounded to the nearest integer, ties to even. *)
Definition cents_of (m : positive) (e : Z) : N :=
  let n := (Npos m * 100)%N in
  if (0 <=? e)%Z then (n * 2 ^ Z.to_N e)%N
  else
    let d := (2 ^ Z.to_N (- e))%N in
    let q := (n / d)%N in
    let r := (n mod d)%N in
    match (2 * r ?= d)%N with
    | Lt => q
    | Gt => (q + 1)%N
    | Eq => if N.even q then q else (q + 1)%N
    end.

Definition fixed2 (neg : bool) (cents : N) : string :=
  string_of_list_ascii
    ((if neg then ["-"%char] else [])
       ++ digits (cents / 100) ++ "."%char :: pad2 (cents mod 100)).

Definition format_2f (x : float) : string :=
  match Prim2SF x with
  | S754_nan => "nan"
  | S754_infinity false => "inf"
  | S754_infinity true => "-inf"
  | S754_zero neg => fixed2 neg 0
  | S754_finite neg m e => fixed2 neg (cents_of m e)
  end.

(** *** Iterating over a set

    The order in which CPython lists the elements of a set depends on
    their hashes, which for texts change from one process to the next, and
    on how the set was filled.  It is left open: [iterate history X] is
    some listing of the set [X], each element once, that may depend on the
    sequences [history] the set was built from. *)
Class SetOrder : Type := {
  iterate : ∀ {A : Type} `{Countable A}, list (list A) → gset A → list A;
  iterate_NoDup :
    ∀ {A : Type} `{Countable A} (history : list (list A)) (X : gset A),
      NoDup (iterate history X);
  iterate_elem_of :
    ∀ {A : Type} `{Countable A} (history : list (list A)) (X : gset A) (x : A),
      x ∈ iterate history X ↔ x ∈ X
}.

(** One such listing, used to run the code on examples: the elements in
    the order of their codes. *)
Definition in_code_order : SetOrder := {|
  iterate A _ _ history X := elements X;
  iterate_NoDup A _ _ history X := NoDup_elements X;
  iterate_elem_of A _ _ history X x := elem_of_elements X x
|}.

(** Any listing, with the sets of at most one element listed in the one
    way there is.  It lists every set as [order] does. *)
Definition settled (order : SetOrder) : SetOrder.
Proof.
  refine {| iterate A _ _ history X :=
              match elements X with
              | [] => []
              | [x] => [x]
              | _ :: _ :: _ => @iterate order A _ _ history X
              end |}.
  - intros A ? ? history X. destruct (elements X) as [|x [|y l]].
    + apply NoDup_nil_2.
    + apply NoDup_singleton.
    + apply iterate_NoDup.
  - intros A ? ? history X x. rewrite <- (elem_of_elements X).
    destruct (elements X) as [|y [|z l]] eqn:Hl.
    + reflexivity.
    + reflexivity.
    + rewrite iterate_elem_of, <- (elem_of_elements X), Hl. reflexivity.
Defined.

End Py.


(* ===================================================================== *)
(** ** Python dictionaries with string keys                               *)
(* ===================================================================== *)

(** A [dict] iterates in insertion order; storing under a key that is
    already present replaces the value and keeps the key's position. *)
Module PyDict.

Definition t (V : Type) : Type := list (string * V).

Fixpoint set {V} (k : string) (v : V) (d : t V) : t V :=
  match d with
  | [] => [(k, v)]
  | (k', v') :: r => if String.eqb k' k then (k', v) :: r else (k', v') :: set k v r
  end.

Fixpoint get {V} (k : string) (d : t V) : option V :=
  match d with
  | [] => None
  | (k', v') :: r => if String.eqb k' k then Some v' else get k r
  end.

Definition keys {V} (d : t V) : list string := map fst d.

(** [{key(x): x for x in xs}] *)
Definition comprehension {A} (key : A → string) (xs : list A) : t A :=
  fold_left (λ d x, set (key x) x d) xs [].

End PyDict.

(* ===================================================================== *)
(** ** promooption_client.py                                              *)
(* ===================================================================== *)

Module PromoOption.

(** One entry of a product's ['hijos'] list.  [estatus] is [VNone] when
    the key is absent ([h.get('estatus')]); [precio] is [None] when the key
    is absent ([hijo.get('precio', 0)] then yields [0]); ['skuHijo'] is
    always present and a string. *)
Record Hijo : Type := {
  skuHijo : string;
  estatus : Py.value;
  precio : option Py.value;
  color : option string;
  imagenesHijo : list string
}.

(** One product record of the catalogue; an optional text field is [None]
    when its key is absent. *)
Record ProductData : Type := {
  skuPadre : option string;
  nombrePadre : option string;
  descripcion : option string;
  categorias : option string;
  subCategorias : option string;
  imagenesPadre : list string;
  hijos : list Hijo
}.

(** What the POST to [/all-products] comes back with: the request (or
    [raise_for_status]) raised, or a JSON body was decoded, of which the
    code reads ["success"] and ["response"]. *)
Inductive reply : Type :=
| RequestFailed (e : Py.exn)
| Body (success : Py.value) (response : option (list ProductData)).

(** [PromoOptionClient.get_all_products] *)
Definition get_all_products (r : reply) : Py.exn + list ProductData :=
  match r with
  | RequestFailed e => inl e
  | Body (Py.VBool true) response => inr (default [] response)
  | Body _ _ => inl (Py.OtherError "API returned an error")
  end.

End PromoOption.

(* ===================================================================== *)
(** ** The [shopify] package, as far as the client calls it               *)
(* ===================================================================== *)

Module ShopifyLib.

(** Resource identifiers are only passed around by the code; they are
    kept as their decimal text. *)
Definition Id : Type := string.

(** A variant as the library presents it.  [product_id] is [None] when the
    object has no such attribute, so that reading [variant.product_id]
    raises [AttributeError]. *)
Record Variant : Type := {
  id : Id;
  product_id : option Id;
  sku : string;
  price : string;
  option1 : option string
}.

(** A [shopify.Variant()] that [create_product] fills in. *)
Record NewVariant : Type := {
  nv_option1 : option string;
  nv_price : string;
  nv_sku : string;
  nv_inventory_management : string;
  nv_inventory_quantity : Z
}.

(** An image record [{'src': url}], as the list of its items. *)
Definition Image : Type := list (string * string).

(** A [shopify.Product()] that [create_product] fills in. *)
Record NewProduct : Type := {
  np_title : option string;
  np_body_html : option string;
  np_vendor : string;
  np_product_type : string;
  np_tags : list (option string);
  np_variants : list NewVariant;
  np_images : list Image
}.

(** A product as the REST API returns it. *)
Record Product : Type := {
  p_id : Id;
  p_title : option string;
  variants : list Variant;
  images : list Image
}.

(** One edge of the [productVariants] GraphQL answer: global ids
    (["gid://shopify/ProductVariant/42"]) and the price. *)
Record Edge : Type := {
  node_id : string;
  node_price : string;
  node_product_id : string
}.

(** The calls the client makes, over an abstract state [W] of the remote
    shop.  Each call may change the shop and either returns or raises.
      - [graphql_product_variants sku]: [GraphQL().execute] of the
        [productVariants(first: 1, query: "sku:" + sku)] query, decoded down
        to its list of edges;
      - [variant_find id]: [shopify.Variant.find(id)];
      - [variant_save v]: [v.save()] on a found variant;
      - [variant_delete id pid]: [shopify.Variant.delete(id, product_id=pid)];
      - [product_find id]: [shopify.Product.find(id)]; the library builds
        the variants listed in the product from their JSON records and
        moves the ["product_id"] of each from its attributes to its prefix
        options, so these variants have no [product_id] attribute;
      - [product_save p]: [p.save()] on a new product, [None] when it
        returns [False], the stored product when it returns [True];
      - [clear_session]: [shopify.ShopifyResource.clear_session()]. *)
Class Library (W : Type) : Type := {
  graphql_product_variants : string → W → W * (Py.exn + list Edge);
  variant_find : Id → W → W * (Py.exn + Variant);
  variant_save : Variant → W → W * (Py.exn + bool);
  variant_delete : Id → Id → W → W * (Py.exn + unit);
  product_find : Id → W → W * (Py.exn + Product);
  product_save : NewProduct → W → W * (Py.exn + option Product);
  clear_session : W → W
}.

End ShopifyLib.

(* ===================================================================== *)
(** ** Effects: the remote shop, the calls made on the client, the output *)
(* ===================================================================== *)

Module Effects.
Import ShopifyLib.

(** The calls [run_full_sync] makes on its [ShopifyClient], with their
    arguments.  They are recorded in the order they are made. *)
Inductive Op : Type :=
| FindBySku (sku : string)
| GetVariants (pid : Id)
| CreateProduct (pd : PromoOption.ProductData)
| UpdatePrice (vid : Id) (new_price : float)
| DeleteVariant (pid vid : Id)
| CloseSession.

(** The diagnostic lines the code prints (the progress lines are left
    out). *)
Inductive Line : Type :=
| SkippingNoActive (name : option string)
| LookupRaised (sku : string) (e : Py.exn)
| UpdateRejected (vid : Id)
| UpdateRaised (vid : Id) (e : Py.exn)
| FetchVariantsRaised (pid : Id) (e : Py.exn)
| DeleteRaised (vid : Id) (e : Py.exn)
| CreateRejected (title : option string)
| CreateRaised (title : option string) (e : Py.exn)
| CriticalError (e : Py.exn).

Record St (W : Type) : Type := mkSt {
  world : W;
  ops : list Op;
  printed : list Line
}.
Arguments mkSt {W}.
Arguments world {W}.
Arguments ops {W}.
Arguments printed {W}.

(** A computation changes the state and returns ([inr]) or raises
    ([inl]). *)
Definition M (W A : Type) : Type := St W → St W * (Py.exn + A).

Section Monad.
Context {W : Type}.

Definition ret {A} (a : A) : M W A := λ s, (s, inr a).

Definition raise {A} (e : Py.exn) : M W A := λ s, (s, inl e).

Definition bind {A B} (m : M W A) (k : A → M W B) : M W B :=
  λ s, match m s with
       | (s', inr a) => k a s'
       | (s', inl e) => (s', inl e)
       end.

(** A pure step that returns or raises. *)
Definition lift {A} (r : Py.exn + A) : M W A := λ s, (s, r).

(** A call into the [shopify] package. *)
Definition call {A} (f : W → W * (Py.exn + A)) : M W A :=
  λ s, let '(w, r) := f (world s) in (mkSt w (ops s) (printed s), r).

Definition emit (o : Op) : M W unit :=
  λ s, (mkSt (world s) (ops s ++ [o]) (printed s), inr tt).

Definition print (l : Line) : M W unit :=
  λ s, (mkSt (world s) (ops s) (printed s ++ [l]), inr tt).

(** [try: m  except Exception as e: handler e] *)
Definition try_except {A} (m : M W A) (handler : Py.exn → M W A) : M W A :=
  λ s, match m s with
       | (s', inr a) => (s', inr a)
       | (s', inl e) => handler e s'
       end.

(** [try: m  finally: cleanup] *)
Definition try_finally {A} (m : M W A) (cleanup : M W unit) : M W A :=
  λ s, match m s with
       | (s', r) =>
           match cleanup s' with
           | (s'', inr _) => (s'', r)
           | (s'', inl e) => (s'', inl e)
           end
       end.

(** [for x in xs: body x]; an exception leaves the loop. *)
Fixpoint for_each {A} (xs : list A) (body : A → M W unit) : M W unit :=
  match xs with
  | [] => ret tt
  | x :: r => bind (body x) (λ _, for_each r body)
  end.

End Monad.

Notation "'let*' x ':=' m 'in' k" := (bind m (λ x, k))
  (at level 10, x name, m at level 100, k at level 200).
Notation "m ';;' k" := (bind m (λ _, k))
  (at level 100, k at level 200, right associativity).

End Effects.

(* ===================================================================== *)
(** ** shopify_client.py                                                  *)
(* ===================================================================== *)

Module ShopifyClient.
Import ShopifyLib Effects PromoOption.

(** What [find_product_variant_by_sku] returns when a variant is found. *)
Record Found : Type := {
  variant_id : Id;
  found_product_id : Id;
  found_price : string
}.

(** [s.split('/')[-1]] *)
Definition last_segment (s : string) : string :=
  string_of_list_ascii
    (fold_left (λ acc c, if Ascii.eqb c "/" then [] else acc ++ [c])
       (list_ascii_of_string s) []).

(** The price computation of [create_product] for one ['hijos'] entry:
    [float(...)] may raise; [ValueError] and [TypeError] are handled with
    0.0, anything else propagates. *)
Definition final_price (hijo : Hijo) : Py.exn + float :=
  match Py.float_of (default (Py.VInt 0) (precio hijo)) with
  | inr base_price =>
      let special_price := (base_price * 0.77)%float in
      inr (special_price / 0.60)%float
  | inl Py.ValueError | inl Py.TypeError => inr 0%float
  | inl e => inl e
  end.

Definition new_variant (hijo : Hijo) (final_price : float) : NewVariant :=
  {| nv_option1 := color hijo;
     nv_price := Py.format_2f final_price;
     nv_sku := skuHijo hijo;
     nv_inventory_management := "shopify";
     nv_inventory_quantity := 0 |}.

(** The loop over [product_data.get('hijos', [])] that fills [variants]. *)
Fixpoint build_variants (hs : list Hijo) : Py.exn + list NewVariant :=
  match hs with
  | [] => inr []
  | hijo :: r =>
      match final_price hijo with
      | inl e => inl e
      | inr p =>
          match build_variants r with
          | inl e => inl e
          | inr vs => inr (new_variant hijo p :: vs)
          end
      end
  end.

(** [variant.price = text] *)
Definition with_price (variant : Variant) (text : string) : Variant :=
  {| id := id variant; product_id := product_id variant; sku := sku variant;
     price := text; option1 := option1 variant |}.

Definition image_of (img_url : string) : Image := [("src"%string, img_url)].

(** The list [images] before duplicates are removed: the parent's images,
    then every child's images. *)
Definition collect_images (product_data : ProductData) : list Image :=
  map image_of (imagenesPadre product_data)
    ++ flat_map (λ hijo, map image_of (imagenesHijo hijo)) (hijos product_data).

(** [[dict(t) for t in {tuple(d.items()) for d in images}]]: the records
    go through a set; the order in which a set is listed is not
    specified. *)
Definition unique_images `{!Py.SetOrder} (product_data : ProductData) : list Image :=
  Py.iterate [collect_images product_data]
    (list_to_set (collect_images product_data) : gset Image).

Definition new_product `{!Py.SetOrder} (product_data : ProductData)
    (vs : list NewVariant) : NewProduct :=
  {| np_title := nombrePadre product_data;
     np_body_html := descripcion product_data;
     np_vendor := "PromoOpción";
     np_product_type := default "General"%string (subCategorias product_data);
     np_tags := [categorias product_data; subCategorias product_data];
     np_variants := vs;
     np_images := unique_images product_data |}.

Section Client.
Context {W : Type} `{!Library W} `{!Py.SetOrder}.

(** The pause of one second before the request ([time.sleep(1)]) has no
    counterpart here. *)
Definition find_product_variant_by_sku (sku : string) : M W (option Found) :=
  emit (FindBySku sku) ;;
  try_except
    (let* variants := call (graphql_product_variants sku) in
     match variants with
     | edge :: _ =>
         ret (Some {| variant_id := last_segment (node_id edge);
                      found_product_id := last_segment (node_product_id edge);
                      found_price := node_price edge |})
     | [] => ret None
     end)
    (λ e, print (LookupRaised sku e) ;; raise e).

Definition update_variant_price (numeric_variant_id : Id) (new_price : float) : M W bool :=
  emit (UpdatePrice numeric_variant_id new_price) ;;
  try_except
    (let* variant := call (variant_find numeric_variant_id) in
     let variant := with_price variant (Py.format_2f new_price) in
     let* saved := call (variant_save variant) in
     if saved then ret true
     else print (UpdateRejected numeric_variant_id) ;; ret false)
    (λ e, print (UpdateRaised numeric_variant_id e) ;; ret false).

Definition get_variants_for_product (numeric_product_id : Id) : M W (list Variant) :=
  emit (GetVariants numeric_product_id) ;;
  try_except
    (let* product := call (product_find numeric_product_id) in
     ret (variants product))
    (λ e, print (FetchVariantsRaised numeric_product_id e) ;; ret []).

Definition delete_product_variant (numeric_product_id numeric_variant_id : Id) : M W bool :=
  emit (DeleteVariant numeric_product_id numeric_variant_id) ;;
  try_except
    (call (variant_delete numeric_variant_id numeric_product_id) ;; ret true)
    (λ e, print (DeleteRaised numeric_variant_id e) ;; ret false).

Definition create_product (product_data : ProductData) : M W (option Product) :=
  emit (CreateProduct product_data) ;;
  let* vs := lift (build_variants (hijos product_data)) in
  let new_product := new_product product_data vs in
  try_except
    (let* saved := call (product_save new_product) in
     match saved with
     | Some p => ret (Some p)
     | None => print (CreateRejected (np_title new_product)) ;; ret None
     end)
    (λ e, print (CreateRaised (np_title new_product) e) ;; ret None).

Definition close_session : M W unit :=
  emit CloseSession ;;
  λ s, (mkSt (clear_session (world s)) (ops s) (printed s), inr tt).

End Client.

End ShopifyClient.

(* ===================================================================== *)
(** ** sync_manager.py                                                    *)
(* ===================================================================== *)

Module SyncManager.
Import ShopifyLib Effects PromoOption ShopifyClient.

(** [h.get('estatus') == '1'] *)
Definition is_active (h : Hijo) : bool :=
  match estatus h with
  | Py.VStr s => String.eqb s "1"
  | _ => false
  end.

(** [{h['skuHijo']: h for h in product_data.get('hijos', []) if h.get('estatus') == '1'}] *)
Definition supplier_variants_active (product_data : ProductData) : PyDict.t Hijo :=
  PyDict.comprehension skuHijo (List.filter is_active (hijos product_data)).

(** The price computation of [run_full_sync] for one active variant. *)
Definition new_price (supplier_variant : Hijo) : Py.exn + float :=
  match Py.float_of (default (Py.VInt 0) (precio supplier_variant)) with
  | inr base_price => inr ((base_price * 0.77) / 0.60)%float
  | inl Py.ValueError | inl Py.TypeError => inr 0%float
  | inl e => inl e
  end.

(** [abs(current - new_price) > 0.01] *)
Definition price_differs (current new_price : float) : bool :=
  (0.01 <? PrimFloat.abs (current - new_price))%float.

(** [shopify_skus - supplier_skus] *)
Definition skus_to_delete (supplier_variants_active : PyDict.t Hijo)
    (shopify_variants_by_sku : PyDict.t Variant) : gset string :=
  let supplier_skus : gset string := list_to_set (PyDict.keys supplier_variants_active) in
  let shopify_skus : gset string := list_to_set (PyDict.keys shopify_variants_by_sku) in
  shopify_skus ∖ supplier_skus.

(** [all_products[:n]] *)
Definition slice_to {A} (l : list A) (n : Z) : list A :=
  if (0 <=? n)%Z then firstn (Z.to_nat n) l
  else firstn (Z.to_nat (Z.of_nat (length l) + n)) l.

(** [all_products[:product_limit] if product_limit else all_products];
    [None] and [0] are the falsy limits. *)
Definition products_to_process (product_limit : option Z)
    (all_products : list ProductData) : list ProductData :=
  match product_limit with
  | None => all_products
  | Some n => if (n =? 0)%Z then all_products else slice_to all_products n
  end.

Section Sync.
Context {W : Type} `{!Library W} `{!Py.SetOrder}.

(** The body of the loop "check for price updates on existing variants". *)
Definition check_price (shopify_variants_by_sku : PyDict.t Variant)
    (item : string * Hijo) : M W unit :=
  let '(sku, supplier_variant) := item in
  match PyDict.get sku shopify_variants_by_sku with
  | None => ret tt
  | Some shopify_variant =>
      let* new_price := lift (new_price supplier_variant) in
      let* current := lift (Py.float_of (Py.VStr (price shopify_variant))) in
      if price_differs current new_price
      then update_variant_price (id shopify_variant) new_price ;; ret tt
      else ret tt
  end.

(** The body of the loop "check for variants to delete".  The arguments
    of the call are evaluated first, [variant_to_delete.product_id] before
    [variant_to_delete.id]. *)
Definition delete_discontinued (shopify_variants_by_sku : PyDict.t Variant)
    (sku : string) : M W unit :=
  match PyDict.get sku shopify_variants_by_sku with
  | None => raise Py.KeyError
  | Some variant_to_delete =>
      match product_id variant_to_delete with
      | None => raise Py.AttributeError
      | Some numeric_product_id =>
          delete_product_variant numeric_product_id (id variant_to_delete) ;;
          ret tt
      end
  end.

(** Branch 4b of the loop body: the product exists in the shop. *)
Definition update_existing (supplier_variants_active : PyDict.t Hijo)
    (existing_product_info : Found) : M W unit :=
  let* shopify_variants := get_variants_for_product (found_product_id existing_product_info) in
  let shopify_variants_by_sku := PyDict.comprehension sku shopify_variants in
  for_each supplier_variants_active (check_price shopify_variants_by_sku) ;;
  for_each
    (Py.iterate [PyDict.keys shopify_variants_by_sku; PyDict.keys supplier_variants_active]
       (skus_to_delete supplier_variants_active shopify_variants_by_sku))
    (delete_discontinued shopify_variants_by_sku).

(** The body of the loop over [products_to_process]. *)
Definition process_product (product_data : ProductData) : M W unit :=
  let supplier_variants_active := supplier_variants_active product_data in
  match supplier_variants_active with
  | [] => print (SkippingNoActive (nombrePadre product_data))
  | (first_sku, _) :: _ =>
      let* existing_product_info := find_product_variant_by_sku first_sku in
      match existing_product_info with
      | None => create_product product_data ;; ret tt
      | Some info => update_existing supplier_variants_active info
      end
  end.

(** [SyncManager.run_full_sync]; [supplier] is what the supplier's API
    answers to the one catalogue request. *)
Definition run_full_sync (product_limit : option Z) (supplier : reply) : M W unit :=
  try_finally
    (try_except
       (let* all_products := lift (get_all_products supplier) in
        for_each (products_to_process product_limit all_products) process_product)
       (λ e, print (CriticalError e)))
    close_session.

End Sync.

End SyncManager.

(* ===================================================================== *)
(** ** A reference shop held in memory                                    *)
(* ===================================================================== *)

(** An implementation of the [shopify] calls over a list of products, used
    to run the code on concrete catalogues.  The shop can be told which
    endpoints are down (the call raises) and which saves it rejects
    ([save()] returns [False]). *)
Module MemShop.
Import ShopifyLib.

Inductive Endpoint : Type :=
| GraphQL | VariantFind | VariantSave | VariantDelete | ProductFind | ProductSave.

#[global] Instance Endpoint_eq_dec : EqDecision Endpoint.
Proof. solve_decision. Defined.

Record Shop : Type := {
  products : list Product;
  next_id : N;
  raising : list Endpoint;
  rejecting : list Endpoint;
  session_active : bool
}.

Definition is_down (e : Endpoint) (s : Shop) : bool := bool_decide (e ∈ raising s).
Definition rejects (e : Endpoint) (s : Shop) : bool := bool_decide (e ∈ rejecting s).

Definition with_products (ps : list Product) (s : Shop) : Shop :=
  {| products := ps; next_id := next_id s; raising := raising s;
     rejecting := rejecting s; session_active := session_active s |}.

Definition unavailable {A} (s : Shop) : Shop * (Py.exn + A) :=
  (s, inl (Py.OtherError "service unavailable")).

Definition not_found {A} (s : Shop) : Shop * (Py.exn + A) :=
  (s, inl (Py.OtherError "resource not found")).

Definition all_variants (s : Shop) : list Variant := flat_map variants (products s).

Definition edge_of (v : Variant) : Edge :=
  {| node_id := "gid://shopify/ProductVariant/" ++ id v;
     node_price := price v;
     node_product_id := "gid://shopify/Product/" ++ default ""%string (product_id v) |}.

(** A variant as it is listed in a product: without the [product_id]
    attribute. *)
Definition listed (v : Variant) : Variant :=
  {| id := id v; product_id := None; sku := sku v; price := price v;
     option1 := option1 v |}.

Definition with_listed_variants (p : Product) : Product :=
  {| p_id := p_id p; p_title := p_title p; variants := map listed (variants p);
     images := images p |}.

Definition mem_graphql_product_variants (sku0 : string) (s : Shop) : Shop * (Py.exn + list Edge) :=
  if is_down GraphQL s then unavailable s
  else (s, inr (map edge_of (firstn 1 (List.filter (λ v, String.eqb (sku v) sku0) (all_variants s))))).

Definition mem_variant_find (vid : Id) (s : Shop) : Shop * (Py.exn + Variant) :=
  if is_down VariantFind s then unavailable s
  else match List.filter (λ v, String.eqb (id v) vid) (all_variants s) with
       | v :: _ => (s, inr v)
       | [] => not_found s
       end.

Definition replace_variant (v : Variant) (p : Product) : Product :=
  {| p_id := p_id p; p_title := p_title p;
     variants := map (λ v', if String.eqb (id v') (id v) then v else v') (variants p);
     images := images p |}.

Definition mem_variant_save (v : Variant) (s : Shop) : Shop * (Py.exn + bool) :=
  if is_down VariantSave s then unavailable s
  else if rejects VariantSave s then (s, inr false)
  else (with_products (map (replace_variant v) (products s)) s, inr true).

Definition remove_variant (vid pid : Id) (p : Product) : Product :=
  if String.eqb (p_id p) pid then
    {| p_id := p_id p; p_title := p_title p;
       variants := List.filter (λ v, negb (String.eqb (id v) vid)) (variants p);
       images := images p |}
  else p.

Definition mem_variant_delete (vid pid : Id) (s : Shop) : Shop * (Py.exn + unit) :=
  if is_down VariantDelete s then unavailable s
  else if existsb (λ p, String.eqb (p_id p) pid && existsb (λ v, String.eqb (id v) vid) (variants p))
            (products s)
  then (with_products (map (remove_variant vid pid) (products s)) s, inr tt)
  else not_found s.

Definition mem_product_find (pid : Id) (s : Shop) : Shop * (Py.exn + Product) :=
  if is_down ProductFind s then unavailable s
  else match List.filter (λ p, String.eqb (p_id p) pid) (products s) with
       | p :: _ => (s, inr (with_listed_variants p))
       | [] => not_found s
       end.

(** The stored form of a new product: the shop numbers the product and its
    variants, and keeps the prices as sent. *)
Definition stored (np : NewProduct) (n : N) : Product :=
  let pid := Py.str_of_N n in
  {| p_id := pid;
     p_title := np_title np;
     variants :=
       imap (λ i nv, {| id := Py.str_of_N (n + 1 + N.of_nat i); product_id := Some pid;
                        sku := nv_sku nv; price := nv_price nv;
                        option1 := nv_option1 nv |})
            (np_variants np);
     images := np_images np |}.

Definition mem_product_save (np : NewProduct) (s : Shop) : Shop * (Py.exn + option Product) :=
  if is_down ProductSave s then unavailable s
  else if rejects ProductSave s then (s, inr None)
  else
    let p := stored np (next_id s) in
    ({| products := products s ++ [p];
        next_id := next_id s + 1 + N.of_nat (length (np_variants np));
        raising := raising s; rejecting := rejecting s;
        session_active := session_active s |},
     inr (Some p)).

Definition mem_clear_session (s : Shop) : Shop :=
  {| products := products s; next_id := next_id s; raising := raising s;
     rejecting := rejecting s; session_active := false |}.

#[global] Instance mem_library : Library Shop := {|
  graphql_product_variants := mem_graphql_product_variants;
  variant_find := mem_variant_find;
  variant_save := mem_variant_save;
  variant_delete := mem_variant_delete;
  product_find := mem_product_find;
  product_save := mem_product_save;
  clear_session := mem_clear_session
|}.

(** A shop with the given products, everything up, a session active. *)
Definition shop_with (ps : list Product) (n : N) : Shop :=
  {| products := ps; next_id := n; raising := []; rejecting := [];
     session_active := true |}.

(** Running a computation from a shop, with nothing recorded yet. *)
Definition start (s : Shop) : Effects.St Shop := Effects.mkSt s [] [].

End MemShop.

(* ===================================================================== *)
(** ** Vocabulary of the properties                                       *)
(* ===================================================================== *)

Module Props.
Import ShopifyLib Effects PromoOption ShopifyClient SyncManager.

(** The SKUs looked up in the shop, in order: one probe per product that
    reached step 3 of the loop body. *)
Definition probes (l : list Op) : list string :=
  flat_map (λ o, match o with FindBySku sku => [sku] | _ => [] end) l.

(** The probe of a product: its first active SKU, if it has one. *)
Definition probe_of (product_data : ProductData) : list string :=
  match supplier_variants_active product_data with
  | [] => []
  | (first_sku, _) :: _ => [first_sku]
  end.

Definition expected_probes (ps : list ProductData) : list string :=
  flat_map probe_of ps.

Definition creations (l : list Op) : list ProductData :=
  flat_map (λ o, match o with CreateProduct pd => [pd] | _ => [] end) l.

Definition is_critical (l : Line) : bool :=
  match l with CriticalError _ => true | _ => false end.

(** The critical errors among the printed lines. *)
Definition critical_errors (l : list Line) : list Line := List.filter is_critical l.



(** What [find_product_variant_by_sku] makes of the edges it received. *)
Definition found_of (edges : list Edge) : option Found :=
  match edges with
  | edge :: _ =>
      Some {| variant_id := last_segment (node_id edge);
              found_product_id := last_segment (node_product_id edge);
              found_price := node_price edge |}
  | [] => None
  end.

(** From [s] to [s'] the calls [new_ops] were made on the client, and
    nothing critical was printed. *)
Definition advances {W} (s s' : St W) (new_ops : list Op) : Prop :=
  ops s' = ops s ++ new_ops
  ∧ ∃ lines, printed s' = printed s ++ lines ∧ critical_errors lines = [].

(** The price update the specification asks for, for one active supplier
    SKU: present in the shop's SKU set and priced beyond the tolerance. *)
Definition spec_price_update (shopify_variants_by_sku : PyDict.t Variant)
    (item : string * Hijo) : list Op :=
  match PyDict.get item.1 shopify_variants_by_sku with
  | None => []
  | Some shopify_variant =>
      match new_price item.2, Py.float_of (Py.VStr (price shopify_variant)) with
      | inr computed, inr current =>
          if (0.01 <? PrimFloat.abs (current - computed))%float
          then [UpdatePrice (id shopify_variant) computed]
          else []
      | _, _ => []
      end
  end.

(** A supplier variant whose price is missing or does not parse as a
    number: the key is absent, or [float()] raises [ValueError] (a text
    that is no number) or [TypeError] (no text and no number at all). *)
Definition unpriced (h : Hijo) : Prop :=
  match precio h with
  | None => True
  | Some v => Py.float_of v = inl Py.ValueError ∨ Py.float_of v = inl Py.TypeError
  end.

(** The prices involved convert to numbers. *)
Definition priced (h : Hijo) : Prop := ∃ p, new_price h = inr p.

Definition numeric_price (v : Variant) : Prop :=
  ∃ c, Py.float_of (Py.VStr (price v)) = inr c.

(** The prices the price loop needs for the active SKUs that are in the
    shop's index convert to numbers. *)
Definition prices_convert (active : PyDict.t Hijo) (by_sku : PyDict.t Variant) : Prop :=
  Forall (λ item, ∀ v, PyDict.get item.1 by_sku = Some v → priced item.2 ∧ numeric_price v)
    active.


(** The state in which a run over a fetched catalogue ends when its loop
    over the products ends in [s1] with the outcome [r]: an exception is
    printed as critical, the session is closed. *)
Definition closed_after {W} `{!Library W} (s1 : St W) (r : Py.exn + unit) : St W :=
  mkSt (clear_session (world s1)) (ops s1 ++ [CloseSession])
       (printed s1 ++ match r with inl e => [CriticalError e] | inr _ => [] end).

(** Two listings of sets that list every set alike. *)
Definition same_listing (order order' : Py.SetOrder) : Prop :=
  ∀ (A : Type) (eq_dec : EqDecision A) (countable : Countable A)
    (history : list (list A)) (X : gset A),
    @Py.iterate order A eq_dec countable history X
    = @Py.iterate order' A eq_dec countable history X.

End Props.

(* ===================================================================== *)
(** ** A shop that cannot be written to                                   *)
(* ===================================================================== *)

(** An implementation of the [shopify] calls over a fixed list of products:
    look-ups and reads are answered from the list, every write raises. *)
Module FrozenShop.
Import ShopifyLib.

Definition write_refused {A} (w : unit) : unit * (Py.exn + A) :=
  (w, inl (Py.OtherError "read-only shop")).

Definition frozen_library (ps : list Product) : Library unit := {|
  graphql_product_variants sku0 w :=
    (w, inr (map MemShop.edge_of
               (firstn 1 (List.filter (λ v, String.eqb (sku v) sku0) (flat_map variants ps)))));
  variant_find vid w := write_refused w;
  variant_save v w := write_refused w;
  variant_delete vid pid w := write_refused w;
  product_find pid w :=
    match List.filter (λ p, String.eqb (p_id p) pid) ps with
    | p :: _ => (w, inr (MemShop.with_listed_variants p))
    | [] => (w, inl (Py.OtherError "resource not found"))
    end;
  product_save np w := write_refused w;
  clear_session w := w
|}.

End FrozenShop.

(* ===================================================================== *)
(** ** Sample catalogues and shops                                        *)
(* ===================================================================== *)

Module Samples.
Import ShopifyLib PromoOption.

Definition hijo (sku0 status precio0 : string) (imgs : list string) : Hijo :=
  {| skuHijo := sku0; estatus := Py.VStr status; precio := Some (Py.VStr precio0);
     color := Some "PLATA"%string; imagenesHijo := imgs |}.

Definition producto (nombre : string) (imgs : list string) (hs : list Hijo) : ProductData :=
  {| skuPadre := None; nombrePadre := Some nombre; descripcion := None;
     categorias := Some "BEBIDAS"%string; subCategorias := Some "VASOS"%string;
     imagenesPadre := imgs; hijos := hs |}.

(** Two active variants, priced 100.00 and 200.00. *)
Definition vaso : ProductData :=
  producto "VASO" ["A"; "B"]%string
    [hijo "S1" "1" "100.00" ["B"; "C"]%string; hijo "S2" "1" "200.00" []].

(** One active variant and one that is not active. *)
Definition termo : ProductData :=
  producto "TERMO" [] [hijo "T1" "1" "100.00" []; hijo "T2" "0" "50.00" []].

(** No active variant. *)
Definition taza : ProductData :=
  producto "TAZA" [] [hijo "Z1" "0" "10.00" []; hijo "Z2" "2" "20.00" []].

(** One active variant without a price, one whose price is not a number. *)
Definition pluma : ProductData :=
  producto "PLUMA" []
    [{| skuHijo := "U1"; estatus := Py.VStr "1"; precio := None; color := None;
        imagenesHijo := [] |};
     hijo "U2" "1" "consultar" []].

Definition shop_variant (vid pid sku0 price0 : string) : Variant :=
  {| id := vid; product_id := Some pid; sku := sku0; price := price0; option1 := None |}.


(** The shop holds VASO with S1 at the price given and a variant S3 the
    supplier does not list. *)
Definition vaso_in_shop (s1_price : string) : Product :=
  {| p_id := "7"; p_title := Some "VASO"%string;
     variants := [shop_variant "71" "7" "S1" s1_price; shop_variant "73" "7" "S3" "10.00"];
     images := [] |}.

Definition catalogue (ps : list ProductData) : reply := Body (Py.VBool true) (Some ps).

Definition empty_shop : MemShop.Shop := MemShop.shop_with [] 1000.


End Samples.

(* ===================================================================== *)
(** ** Construction of the clients                                        *)
(* ===================================================================== *)

(** The constructors of the three classes.  The process environment is a
    finite map from names to values; the four literal fall-back values of
    [SyncManager.__init__] are not repeated here, they are taken as
    [Defaults]. *)
Module Setup.



Record PromoOptionClient : Type := {
  user : string;
  password : string
}.


(** The session [ShopifyClient.__init__] builds and activates. *)
Record Session : Type := {
  shop_url : string;
  api_version : string;
  api_token : string
}.



Record SyncManager : Type := {
  promo_client : PromoOptionClient;
  shopify_session : Session
}.



End Setup.

(* ===================================================================== *)
(** ** Vocabulary of the further properties                               *)
(* ===================================================================== *)

Module Shapes.
Import ShopifyLib Effects PromoOption ShopifyClient SyncManager Props.

Definition is_update (o : Op) : bool :=
  match o with UpdatePrice _ _ => true | _ => false end.

Definition is_delete (o : Op) : bool :=
  match o with DeleteVariant _ _ => true | _ => false end.

(** The calls one pass of the loop body may make for a product: none when
    it has no active variant; otherwise the probe, followed by nothing (the
    probe raised), by one creation, or by the fetch of the variants, then
    price updates, then deletions. *)
Definition product_ops (product_data : ProductData) (new : list Op) : Prop :=
  match probe_of product_data with
  | [] => new = []
  | first_sku :: _ =>
      new = [FindBySku first_sku]
      ∨ new = [FindBySku first_sku; CreateProduct product_data]
      ∨ ∃ pid ups dels,
          new = FindBySku first_sku :: GetVariants pid :: ups ++ dels
          ∧ Forall (λ o, is_update o = true) ups
          ∧ Forall (λ o, is_delete o = true) dels
  end.

(** A character that is not the separator of [split('/')]. *)
Definition no_slash (text : string) : Prop :=
  Forall (λ c, c ≠ "/"%char) (list_ascii_of_string text).

(** A product with a child whose price is an integer too large for a
    float. *)
Definition lingote : ProductData :=
  Samples.producto "LINGOTE" []
    [{| skuHijo := "L1"; estatus := Py.VStr "1"; precio := Some (Py.VInt (10 ^ 400));
        color := None; imagenesHijo := [] |}].


End Shapes.

(* ===================================================================== *)
(** ** Facts about dictionaries                                           *)
(* ===================================================================== *)

Module PyDictFacts.
Import PyDict.

Lemma keys_set {V} (k : string) (v : V) (d : t V) :
  ∀ k', k' ∈ keys (set k v d) ↔ k' = k ∨ k' ∈ keys d.
Proof.
  induction d as [|[k0 v0] d IH]; intros k'; simpl.
  - rewrite list_elem_of_singleton. set_solver.
  - destruct (String.eqb_spec k0 k) as [->|Hne]; simpl.
    + set_solver.
    + rewrite !elem_of_cons, IH. tauto.
Qed.

Lemma NoDup_keys_set {V} (k : string) (v : V) (d : t V) :
  NoDup (keys d) → NoDup (keys (set k v d)).
Proof.
  induction d as [|[k0 v0] d IH]; simpl; intros Hd.
  - apply NoDup_singleton.
  - apply NoDup_cons in Hd as [Hk0 Hd].
    destruct (String.eqb_spec k0 k) as [->|Hne]; simpl.
    + by apply NoDup_cons.
    + apply NoDup_cons. split; [|by apply IH].
      fold (keys (set k v d)). rewrite keys_set. intros [->|?]; done.
Qed.

Lemma get_set {V} (k : string) (v : V) (d : t V) (k' : string) :
  get k' (set k v d) = if String.eqb k k' then Some v else get k' d.
Proof.
  induction d as [|[k0 v0] d IH]; simpl.
  - done.
  - destruct (String.eqb_spec k0 k) as [->|Hne]; simpl.
    + by destruct (String.eqb_spec k k').
    + rewrite IH. destruct (String.eqb_spec k0 k'), (String.eqb_spec k k'); congruence.
Qed.

Lemma get_is_Some {V} (d : t V) (k : string) : k ∈ keys d ↔ is_Some (get k d).
Proof.
  induction d as [|[k0 v0] d IH]; simpl.
  - rewrite elem_of_nil. split; [done | by intros [? ?]].
  - rewrite elem_of_cons, IH.
    destruct (String.eqb_spec k0 k) as [->|Hne].
    + split; [by eauto | by left].
    + split; [intros [?|?]; congruence | by right].
Qed.

Lemma get_elem_of {V} (d : t V) (k : string) (v : V) : get k d = Some v → (k, v) ∈ d.
Proof.
  induction d as [|[k0 v0] d IH]; simpl; [done|].
  destruct (String.eqb_spec k0 k) as [->|Hne].
  - intros [= ->]. by left.
  - intros. right. by apply IH.
Qed.

Lemma get_of_elem_of {V} (d : t V) (k : string) (v : V) :
  NoDup (keys d) → (k, v) ∈ d → get k d = Some v.
Proof.
  induction d as [|[k0 v0] d IH]; simpl; intros Hnd Hin.
  - by apply elem_of_nil in Hin.
  - apply NoDup_cons in Hnd as [Hk0 Hnd].
    apply elem_of_cons in Hin as [[= <- <-]|Hin].
    + by rewrite String.eqb_refl.
    + destruct (String.eqb_spec k0 k) as [->|Hne]; [|by apply IH].
      exfalso. apply Hk0. apply list_elem_of_fmap. by exists (k, v).
Qed.

Section Comprehension.
Context {A : Type} (key : A → string).

Lemma fold_set_keys (xs : list A) (d : t A) :
  ∀ k, k ∈ keys (fold_left (λ d x, set (key x) x d) xs d)
       ↔ k ∈ keys d ∨ ∃ x, x ∈ xs ∧ key x = k.
Proof.
  revert d. induction xs as [|x xs IH]; intros d k; simpl.
  - set_solver.
  - rewrite IH, keys_set. set_solver.
Qed.

Lemma fold_set_NoDup (xs : list A) (d : t A) :
  NoDup (keys d) → NoDup (keys (fold_left (λ d x, set (key x) x d) xs d)).
Proof.
  revert d. induction xs as [|x xs IH]; intros d Hd; simpl; [done|].
  by apply IH, NoDup_keys_set.
Qed.

Lemma fold_set_get (xs : list A) (d : t A) (k : string) (v : A) :
  get k (fold_left (λ d x, set (key x) x d) xs d) = Some v →
  get k d = Some v ∨ (v ∈ xs ∧ key v = k).
Proof.
  revert d. induction xs as [|x xs IH]; intros d; simpl; [by left|].
  intros Hg. apply IH in Hg as [Hg|[? ?]].
  - rewrite get_set in Hg. destruct (String.eqb_spec (key x) k) as [<-|?].
    + injection Hg as ->. right. split; [by left | done].
    + by left.
  - right. split; [by right | done].
Qed.

(** The keys of [{key(x): x for x in xs}] are the keys of the [xs]. *)
Lemma comprehension_keys (xs : list A) (k : string) :
  k ∈ keys (comprehension key xs) ↔ ∃ x, x ∈ xs ∧ key x = k.
Proof. unfold comprehension. rewrite fold_set_keys. set_solver. Qed.

Lemma comprehension_NoDup (xs : list A) : NoDup (keys (comprehension key xs)).
Proof. apply fold_set_NoDup. constructor. Qed.

(** A value of the dictionary is one of the [xs], stored under its key. *)
Lemma comprehension_get (xs : list A) (k : string) (v : A) :
  get k (comprehension key xs) = Some v → v ∈ xs ∧ key v = k.
Proof. intros Hg. by apply fold_set_get in Hg as [?|?]. Qed.

Lemma fold_set_get_unique (xs : list A) (d : t A) (x : A) :
  NoDup (map key xs) → x ∈ xs → (∀ y, y ∈ xs → key y ∉ keys d) →
  get (key x) (fold_left (λ d x, set (key x) x d) xs d) = Some x.
Proof.
  revert d. induction xs as [|y xs IH]; intros d Hnd Hx Hfresh; simpl.
  - by apply elem_of_nil in Hx.
  - simpl in Hnd. apply NoDup_cons in Hnd as [Hy Hnd].
    apply elem_of_cons in Hx as [->|Hx].
    + destruct (get (key y) (fold_left (λ d x, set (key x) x d) xs (set (key y) y d)))
        as [v|] eqn:Hg.
      * apply fold_set_get in Hg as [Hg|[Hv Hk]].
        -- rewrite get_set, String.eqb_refl in Hg. done.
        -- exfalso. apply Hy. rewrite <- Hk. apply list_elem_of_fmap. by exists v.
      * exfalso.
        assert (key y ∈ keys (fold_left (λ d x, set (key x) x d) xs (set (key y) y d))) as Hin.
        { apply fold_set_keys. left. apply keys_set. by left. }
        apply get_is_Some in Hin as [? Hin]. congruence.
    + apply IH; [done..|].
      intros z Hz. rewrite keys_set. intros [Heq|Hin].
      * apply Hy. rewrite <- Heq. apply list_elem_of_fmap. by exists z.
      * eapply Hfresh; [by right | done].
Qed.

(** When the keys of the [xs] are distinct, each one is stored. *)
Lemma comprehension_get_unique (xs : list A) (x : A) :
  NoDup (map key xs) → x ∈ xs → get (key x) (comprehension key xs) = Some x.
Proof.
  intros. apply fold_set_get_unique; [done..|].
  intros y _. simpl. apply not_elem_of_nil.
Qed.

End Comprehension.

End PyDictFacts.

(* ===================================================================== *)
(** ** Facts about the client                                             *)
(* ===================================================================== *)

Module ClientFacts.
Import ShopifyLib Effects PromoOption ShopifyClient SyncManager Props.

Lemma critical_errors_app (a b : list Line) :
  critical_errors (a ++ b) = critical_errors a ++ critical_errors b.
Proof. apply List.filter_app. Qed.

Lemma probes_app (a b : list Op) : probes (a ++ b) = probes a ++ probes b.
Proof. apply flat_map_app. Qed.

Lemma creations_app (a b : list Op) : creations (a ++ b) = creations a ++ creations b.
Proof. apply flat_map_app. Qed.

Section Facts.
Context {W : Type} `{!Library W} `{!Py.SetOrder}.

Lemma advances_refl (s : St W) : advances s s [].
Proof. split; [by rewrite app_nil_r | exists []; by rewrite app_nil_r]. Qed.

Lemma advances_trans (s1 s2 s3 : St W) (a b : list Op) :
  advances s1 s2 a → advances s2 s3 b → advances s1 s3 (a ++ b).
Proof.
  intros [Ho1 (l1 & Hp1 & Hc1)] [Ho2 (l2 & Hp2 & Hc2)]. split.
  - by rewrite Ho2, Ho1, app_assoc.
  - exists (l1 ++ l2). split.
    + by rewrite Hp2, Hp1, app_assoc.
    + by rewrite critical_errors_app, Hc1, Hc2.
Qed.

Lemma advances_print (s : St W) (l : Line) :
  is_critical l = false →
  advances s (mkSt (world s) (ops s) (printed s ++ [l])) [].
Proof.
  intros Hl. split; simpl; [by rewrite app_nil_r|].
  exists [l]. split; [done|]. unfold critical_errors. simpl. by rewrite Hl.
Qed.

(** *** [find_product_variant_by_sku] *)

Lemma find_returns (sku : string) (s : St W) (w : W) (edges : list Edge) :
  graphql_product_variants sku (world s) = (w, inr edges) →
  find_product_variant_by_sku sku s
  = (mkSt w (ops s ++ [FindBySku sku]) (printed s), inr (found_of edges)).
Proof.
  intros Hq. unfold find_product_variant_by_sku, bind, emit, try_except, call. simpl.
  rewrite Hq. by destruct edges.
Qed.

Lemma find_raises (sku : string) (s : St W) (w : W) (e : Py.exn) :
  graphql_product_variants sku (world s) = (w, inl e) →
  find_product_variant_by_sku sku s
  = (mkSt w (ops s ++ [FindBySku sku]) (printed s ++ [LookupRaised sku e]), inl e).
Proof.
  intros Hq. unfold find_product_variant_by_sku, bind, emit, try_except, call. simpl.
  by rewrite Hq.
Qed.

(** *** The methods that catch what the library raises *)

Lemma update_variant_price_returns (vid : Id) (p : float) (s : St W) :
  ∃ w b lines,
    update_variant_price vid p s
    = (mkSt w (ops s ++ [UpdatePrice vid p]) (printed s ++ lines), inr b)
    ∧ critical_errors lines = []
    ∧ (b = false → ∃ l, lines = [l]).
Proof.
  unfold update_variant_price, bind, emit, try_except, call, print, ret. simpl.
  destruct (variant_find vid (world s)) as [w1 [e|v]]; simpl.
  - exists w1, false, [UpdateRaised vid e]. eauto.
  - destruct (variant_save _ w1) as [w2 [e|[|]]]; simpl.
    + exists w2, false, [UpdateRaised vid e]. eauto.
    + exists w2, true, []. rewrite app_nil_r. by eauto.
    + exists w2, false, [UpdateRejected vid]. eauto.
Qed.

Lemma delete_product_variant_returns (pid vid : Id) (s : St W) :
  ∃ w b lines,
    delete_product_variant pid vid s
    = (mkSt w (ops s ++ [DeleteVariant pid vid]) (printed s ++ lines), inr b)
    ∧ critical_errors lines = []
    ∧ (b = false → ∃ l, lines = [l]).
Proof.
  unfold delete_product_variant, bind, emit, try_except, call, print, ret. simpl.
  destruct (variant_delete vid pid (world s)) as [w1 [e|[]]]; simpl.
  - exists w1, false, [DeleteRaised vid e]. eauto.
  - exists w1, true, []. rewrite app_nil_r. by eauto.
Qed.

Lemma get_variants_for_product_returns (pid : Id) (s : St W) :
  ∃ w vs lines,
    get_variants_for_product pid s
    = (mkSt w (ops s ++ [GetVariants pid]) (printed s ++ lines), inr vs)
    ∧ critical_errors lines = []
    ∧ match product_find pid (world s) with
      | (w', inr p) => w = w' ∧ vs = variants p ∧ lines = []
      | (w', inl e) => w = w' ∧ vs = [] ∧ lines = [FetchVariantsRaised pid e]
      end.
Proof.
  unfold get_variants_for_product, bind, emit, try_except, call, print, ret. simpl.
  destruct (product_find pid (world s)) as [w1 [e|p]]; simpl.
  - exists w1, [], [FetchVariantsRaised pid e]. eauto.
  - exists w1, (variants p), []. rewrite app_nil_r. by eauto.
Qed.

Lemma create_product_returns (pd : ProductData) (vs : list NewVariant) (s : St W) :
  build_variants (hijos pd) = inr vs →
  ∃ r lines,
    create_product pd s
    = (mkSt (product_save (new_product pd vs) (world s)).1
            (ops s ++ [CreateProduct pd]) (printed s ++ lines), inr r)
    ∧ critical_errors lines = []
    ∧ (r = None → ∃ l, lines = [l]).
Proof.
  intros Hb.
  unfold create_product, bind, emit, try_except, call, print, ret, lift. simpl.
  rewrite Hb.
  destruct (product_save (new_product pd vs) (world s)) as [w1 [e|[p|]]]; simpl.
  - exists None, [CreateRaised (nombrePadre pd) e]. eauto.
  - exists (Some p), []. rewrite app_nil_r. split; [done|]. split; [done|]. by intros.
  - exists None, [CreateRejected (nombrePadre pd)]. eauto.
Qed.

Lemma create_product_raises (pd : ProductData) (e : Py.exn) (s : St W) :
  build_variants (hijos pd) = inl e →
  create_product pd s = (mkSt (world s) (ops s ++ [CreateProduct pd]) (printed s), inl e).
Proof.
  intros Hb.
  unfold create_product, bind, emit, try_except, call, print, ret, lift. simpl.
  by rewrite Hb.
Qed.

End Facts.

(** *** The two price computations *)

(** [create_product] and [run_full_sync] compute the same price. *)
Lemma final_price_new_price (h : Hijo) : final_price h = new_price h.
Proof. reflexivity. Qed.

Lemma build_variants_skus (hs : list Hijo) (vs : list NewVariant) :
  build_variants hs = inr vs → map nv_sku vs = map skuHijo hs.
Proof.
  revert vs. induction hs as [|h hs IH]; simpl; intros vs.
  - by intros [= <-].
  - destruct (final_price h) as [e|p]; [done|].
    destruct (build_variants hs) as [e|vs']; [done|].
    intros [= <-]. simpl. f_equal. by apply IH.
Qed.

Lemma build_variants_app (a b : list Hijo) :
  build_variants (a ++ b)
  = match build_variants a with
    | inl e => inl e
    | inr va =>
        match build_variants b with
        | inl e => inl e
        | inr vb => inr (va ++ vb)
        end
    end.
Proof.
  induction a as [|h a IH]; simpl.
  - by destruct (build_variants b).
  - destruct (final_price h) as [e|p]; [done|]. rewrite IH.
    destruct (build_variants a) as [e|va]; [done|].
    by destruct (build_variants b).
Qed.

Lemma build_variants_length (hs : list Hijo) (vs : list NewVariant) :
  build_variants hs = inr vs → length vs = length hs.
Proof.
  intros Hb. apply build_variants_skus in Hb.
  by rewrite <- (length_map nv_sku), Hb, length_map.
Qed.

End ClientFacts.

(* ===================================================================== *)
(** ** Facts about the reconciliation                                     *)
(* ===================================================================== *)

Module SyncFacts.
Import ShopifyLib Effects PromoOption ShopifyClient SyncManager Props ClientFacts.

Lemma elem_of_set {V} (k : string) (v : V) (d : PyDict.t V) (kv : string * V) :
  kv ∈ PyDict.set k v d → kv = (k, v) ∨ kv ∈ d.
Proof.
  induction d as [|[k0 v0] d IH]; simpl.
  - rewrite list_elem_of_singleton. by left.
  - destruct (String.eqb_spec k0 k) as [->|Hne]; rewrite !elem_of_cons.
    + intros [->|?]; [by left | right; by right].
    + intros [->|Hin]; [right; by left|]. apply IH in Hin as [?|?]; [by left | right; by right].
Qed.

Lemma comprehension_elem_of {A} (key : A → string) (xs : list A) (kv : string * A) :
  kv ∈ PyDict.comprehension key xs → kv.2 ∈ xs ∧ key kv.2 = kv.1.
Proof.
  unfold PyDict.comprehension.
  assert (∀ d, (∀ kv, kv ∈ d → kv.2 ∈ xs ∧ key kv.2 = kv.1) →
               ∀ ys, (∀ y, y ∈ ys → y ∈ xs) →
               ∀ kv, kv ∈ fold_left (λ d x, PyDict.set (key x) x d) ys d →
                     kv.2 ∈ xs ∧ key kv.2 = kv.1) as Hgen.
  { intros d Hd ys. revert d Hd. induction ys as [|y ys IH]; intros d Hd Hys kv'; simpl.
    - apply Hd.
    - apply IH.
      + intros kv'' Hin. apply elem_of_set in Hin as [->|Hin]; [|by apply Hd].
        simpl. split; [apply Hys; by left | done].
      + intros z Hz. apply Hys. by right. }
  apply (Hgen [] ltac:(intros ? Hin; by apply elem_of_nil in Hin) xs ltac:(done)).
Qed.

(** The active variants of a product are children of it whose status is
    ['1']. *)
Lemma supplier_variants_active_elem_of (pd : ProductData) (k : string) (h : Hijo) :
  (k, h) ∈ supplier_variants_active pd → h ∈ hijos pd ∧ is_active h = true ∧ skuHijo h = k.
Proof.
  intros Hin. apply comprehension_elem_of in Hin as [Hh Hk]. simpl in *.
  apply list_elem_of_In, filter_In in Hh as [Hh Ha].
  by rewrite <- list_elem_of_In in Hh.
Qed.

Lemma supplier_variants_active_keys (pd : ProductData) (k : string) :
  k ∈ PyDict.keys (supplier_variants_active pd)
  ↔ ∃ h, h ∈ hijos pd ∧ is_active h = true ∧ skuHijo h = k.
Proof.
  unfold supplier_variants_active. rewrite PyDictFacts.comprehension_keys.
  split; intros (h & Hh & Hk).
  - apply list_elem_of_In, filter_In in Hh as [Hh Ha]. rewrite <- list_elem_of_In in Hh. eauto.
  - destruct Hk as [Ha Hk]. exists h. split; [|done].
    apply list_elem_of_In, filter_In. by rewrite <- list_elem_of_In.
Qed.

Lemma supplier_variants_active_nil (pd : ProductData) :
  supplier_variants_active pd = [] ↔ Forall (λ h, is_active h = false) (hijos pd).
Proof.
  split.
  - intros Hnil. apply Forall_forall. intros h Hh.
    destruct (is_active h) eqn:Ha; [|done]. exfalso.
    assert (skuHijo h ∈ PyDict.keys (supplier_variants_active pd)) as Hin.
    { apply supplier_variants_active_keys. eauto. }
    rewrite Hnil in Hin. by apply elem_of_nil in Hin.
  - intros Hall. unfold supplier_variants_active.
    assert (List.filter is_active (hijos pd) = []) as ->; [|done].
    induction Hall as [|h hs Hh _ IH]; simpl; [done|]. by rewrite Hh.
Qed.

(** *** The SKUs to delete *)

Lemma skus_to_delete_spec (active : PyDict.t Hijo) (by_sku : PyDict.t Variant) (k : string) :
  k ∈ skus_to_delete active by_sku
  ↔ k ∈ PyDict.keys by_sku ∧ k ∉ PyDict.keys active.
Proof.
  unfold skus_to_delete. rewrite elem_of_difference.
  by rewrite !elem_of_list_to_set.
Qed.

(** *** Listings of sets *)

Lemma iterate_empty `{!Py.SetOrder} {A} `{Countable A} (history : list (list A)) (X : gset A) :
  X = ∅ → Py.iterate history X = [].
Proof.
  intros ->. destruct (Py.iterate history ∅) as [|x l] eqn:Hl; [done|].
  assert (x ∈ Py.iterate history (∅ : gset A)) as Hx by (rewrite Hl; by left).
  apply Py.iterate_elem_of in Hx. by apply elem_of_empty in Hx.
Qed.


(** A list without duplicates all of whose elements are [x], and that
    holds [x], is [[x]]. *)
Lemma NoDup_only {A} (x : A) (l : list A) :
  NoDup l → (∀ y, y ∈ l ↔ y = x) → l = [x].
Proof.
  intros Hnd Hl. destruct l as [|a [|b l]].
  - exfalso. apply (elem_of_nil x). by apply Hl.
  - f_equal. apply Hl. by left.
  - exfalso. assert (a = x) as -> by (apply Hl; by left).
    assert (b = x) as -> by (apply Hl; right; by left).
    apply NoDup_cons in Hnd as [Hin _]. apply Hin. by left.
Qed.

Lemma same_listing_settled (order : Py.SetOrder) : same_listing order (Py.settled order).
Proof.
  intros A eq_dec countable history X. simpl.
  destruct (elements X) as [|x [|y l]] eqn:Hl; [| |done].
  - apply iterate_empty. apply leibniz_equiv. by apply elements_empty_iff.
  - apply NoDup_only; [apply Py.iterate_NoDup|]. intros y.
    by rewrite Py.iterate_elem_of, <- (elem_of_elements X), Hl, list_elem_of_singleton.
Qed.

Lemma slice_to_Forall {A} (P : A → Prop) (l : list A) (n : Z) :
  Forall P l → Forall P (slice_to l n).
Proof. intros Hl. unfold slice_to. destruct (0 <=? n)%Z; by apply Forall_take. Qed.

Lemma products_to_process_Forall (P : ProductData → Prop) (limit : option Z)
    (l : list ProductData) :
  Forall P l → Forall P (products_to_process limit l).
Proof.
  intros Hl. destruct limit as [n|]; simpl; [|done].
  destruct (n =? 0)%Z; [done|]. by apply slice_to_Forall.
Qed.

Section Loops.
Context {W : Type} `{!Library W} `{!Py.SetOrder}.

(** *** The price loop *)

Lemma check_price_absent (by_sku : PyDict.t Variant) (k : string) (h : Hijo) (s : St W) :
  PyDict.get k by_sku = None → check_price by_sku (k, h) s = (s, inr tt).
Proof. intros Hg. unfold check_price. by rewrite Hg. Qed.

Lemma check_price_present (by_sku : PyDict.t Variant) (k : string) (h : Hijo)
    (v : Variant) (computed current : float) (s : St W) :
  PyDict.get k by_sku = Some v →
  new_price h = inr computed →
  Py.float_of (Py.VStr (price v)) = inr current →
  check_price by_sku (k, h) s
  = if (0.01 <? PrimFloat.abs (current - computed))%float
    then ((update_variant_price (id v) computed s).1, inr tt)
    else (s, inr tt).
Proof.
  intros Hg Hn Hc. unfold check_price. rewrite Hg.
  unfold bind, lift, ret. rewrite Hn, Hc. unfold price_differs.
  destruct (0.01 <? PrimFloat.abs (current - computed))%float; [|done].
  destruct (update_variant_price_returns (id v) computed s) as (w & b & lines & -> & _).
  done.
Qed.

Lemma check_price_advances (by_sku : PyDict.t Variant) (item : string * Hijo) (s : St W) :
  (∀ v, PyDict.get item.1 by_sku = Some v → priced item.2 ∧ numeric_price v) →
  ∃ s', check_price by_sku item s = (s', inr tt)
        ∧ advances s s' (spec_price_update by_sku item).
Proof.
  destruct item as [k h]. cbn [fst snd]. intros Hok. unfold spec_price_update. cbn [fst snd].
  destruct (PyDict.get k by_sku) as [v|] eqn:Hg.
  - destruct (Hok v eq_refl) as [[p Hp] [c Hc]].
    rewrite (check_price_present _ _ _ _ _ _ _ Hg Hp Hc), Hp, Hc.
    destruct (0.01 <? PrimFloat.abs (c - p))%float.
    + destruct (update_variant_price_returns (id v) p s) as (w & b & lines & Heq & Hcrit & _).
      rewrite Heq. eexists. split; [done|]. split; simpl; eauto.
    + exists s. split; [done | apply advances_refl].
  - rewrite check_price_absent by done. exists s. split; [done | apply advances_refl].
Qed.

Lemma price_loop_advances (by_sku : PyDict.t Variant) (active : list (string * Hijo))
    (s : St W) :
  Forall (λ item, ∀ v, PyDict.get item.1 by_sku = Some v → priced item.2 ∧ numeric_price v)
    active →
  ∃ s', for_each active (check_price by_sku) s = (s', inr tt)
        ∧ advances s s' (flat_map (spec_price_update by_sku) active).
Proof.
  intros Hall. revert s. induction Hall as [|item active Hitem _ IH]; intros s; simpl.
  - exists s. split; [done | apply advances_refl].
  - destruct (check_price_advances by_sku item s Hitem) as (s1 & Heq1 & Hadv1).
    destruct (IH s1) as (s2 & Heq2 & Hadv2).
    exists s2. unfold bind. rewrite Heq1. split; [done|].
    by eapply advances_trans.
Qed.

(** *** The deletion loop *)



End Loops.

End SyncFacts.

(* ===================================================================== *)
(** ** Facts about a run                                                  *)
(* ===================================================================== *)

Module RunFacts.
Import ShopifyLib Effects PromoOption ShopifyClient SyncManager Props ClientFacts SyncFacts.

Section Run.
Context {W : Type} `{!Library W} `{!Py.SetOrder}.

(** The pass over a product found in the shop, up to the deletion loop:
    the variants are fetched, then every active SKU has its price
    checked. *)
Lemma update_existing_prices (active : PyDict.t Hijo) (info : Found) (s : St W)
    (w : W) (p : Product) :
  product_find (found_product_id info) (world s) = (w, inr p) →
  prices_convert active (PyDict.comprehension sku (variants p)) →
  let by_sku := PyDict.comprehension sku (variants p) in
  ∃ s2, advances s s2 (GetVariants (found_product_id info)
                         :: flat_map (spec_price_update by_sku) active)
        ∧ update_existing active info s
          = for_each (Py.iterate [PyDict.keys by_sku; PyDict.keys active]
                        (skus_to_delete active by_sku))
              (delete_discontinued by_sku) s2.
Proof.
  intros Hp Hprices by_sku. unfold update_existing. unfold bind at 1.
  destruct (get_variants_for_product_returns (found_product_id info) s)
    as (w' & vs & lines & Heq & Hcrit & Hfind).
  rewrite Heq. rewrite Hp in Hfind. destruct Hfind as (-> & -> & ->).
  fold by_sku. set (s1 := mkSt w _ _).
  destruct (price_loop_advances by_sku active s1 Hprices) as (s2 & Heq2 & Hadv2).
  exists s2. split.
  - eapply (advances_trans _ s1 _ [_]); [|done]. split; simpl; eauto.
  - unfold bind. by rewrite Heq2.
Qed.

Lemma existing_product_pass (pd : ProductData) (first_sku : string) (h0 : Hijo)
    (rest : PyDict.t Hijo) (s : St W) (w w1 : W) (edges : list Edge) (info : Found)
    (p : Product) :
  supplier_variants_active pd = (first_sku, h0) :: rest →
  graphql_product_variants first_sku (world s) = (w, inr edges) →
  found_of edges = Some info →
  product_find (found_product_id info) w = (w1, inr p) →
  prices_convert (supplier_variants_active pd) (PyDict.comprehension sku (variants p)) →
  let active := supplier_variants_active pd in
  let by_sku := PyDict.comprehension sku (variants p) in
  ∃ s2, advances s s2 (FindBySku first_sku :: GetVariants (found_product_id info)
                         :: flat_map (spec_price_update by_sku) active)
        ∧ process_product pd s
          = for_each (Py.iterate [PyDict.keys by_sku; PyDict.keys active]
                        (skus_to_delete active by_sku))
              (delete_discontinued by_sku) s2.
Proof.
  intros Hact Hq Hfound Hp Hprices active by_sku. subst active by_sku.
  unfold process_product. rewrite Hact in *.
  unfold bind at 1. rewrite (find_returns _ _ _ _ Hq), Hfound.
  set (s1 := mkSt w _ _).
  destruct (update_existing_prices _ info s1 w1 p Hp Hprices) as (s2 & Hadv & Heq).
  exists s2. split; [|done].
  eapply (advances_trans _ s1 _ [_]); [|done]. split; [done|]. exists []. by rewrite app_nil_r.
Qed.




(** A run over a catalogue that was fetched: what it returns when the loop
    over the products does. *)
Lemma run_full_sync_completes (limit : option Z) (catalog : list ProductData)
    (s s' : St W) :
  for_each (products_to_process limit catalog) process_product s = (s', inr tt) →
  run_full_sync limit (Body (Py.VBool true) (Some catalog)) s
  = (mkSt (clear_session (world s')) (ops s' ++ [CloseSession]) (printed s'), inr tt).
Proof.
  intros Hloop.
  unfold run_full_sync, try_finally, try_except, bind, lift, close_session, emit. simpl.
  by rewrite Hloop.
Qed.

(** The same when the loop raises: the error is printed as critical, and
    the session is closed all the same. *)
Lemma run_full_sync_aborts (limit : option Z) (catalog : list ProductData)
    (s s' : St W) (e : Py.exn) :
  for_each (products_to_process limit catalog) process_product s = (s', inl e) →
  run_full_sync limit (Body (Py.VBool true) (Some catalog)) s
  = (mkSt (clear_session (world s')) (ops s' ++ [CloseSession])
          (printed s' ++ [CriticalError e]), inr tt).
Proof.
  intros Hloop.
  unfold run_full_sync, try_finally, try_except, bind, lift, close_session, emit, print. simpl.
  by rewrite Hloop.
Qed.




(** The run over a fetched catalogue, from the outcome of its loop. *)
Lemma run_full_sync_loop (limit : option Z) (catalog : list ProductData)
    (s s1 : St W) (r : Py.exn + unit) :
  for_each (products_to_process limit catalog) process_product s = (s1, r) →
  run_full_sync limit (Body (Py.VBool true) (Some catalog)) s = (closed_after s1 r, inr tt).
Proof.
  intros Hloop. destruct r as [e|[]]; [by apply run_full_sync_aborts|].
  rewrite (run_full_sync_completes _ _ _ _ Hloop). unfold closed_after. by rewrite app_nil_r.
Qed.



End Run.

(** *** The run does not depend on how sets of one element are listed *)

Section Listings.
Context {W : Type} `{!Library W} (order order' : Py.SetOrder).

Lemma for_each_same {A} (f g : A → M W unit) (xs : list A) :
  (∀ x s, f x s = g x s) → ∀ s, for_each xs f s = for_each xs g s.
Proof.
  intros Hfg. induction xs as [|x xs IH]; intros s; cbn [for_each]; [done|].
  unfold bind. rewrite Hfg. destruct (g x s) as [s1 [e|[]]]; [done | apply IH].
Qed.

Lemma create_product_same (pd : ProductData) (s : St W) :
  same_listing order order' →
  @create_product W _ order pd s = @create_product W _ order' pd s.
Proof.
  intros Hsame. unfold create_product, bind, lift, emit. simpl.
  destruct (build_variants (hijos pd)) as [e|vs]; [done|].
  unfold new_product, unique_images. by rewrite Hsame.
Qed.

Lemma update_existing_same (active : PyDict.t Hijo) (info : Found) (s : St W) :
  same_listing order order' →
  @update_existing W _ order active info s = @update_existing W _ order' active info s.
Proof.
  intros Hsame. unfold update_existing, bind.
  destruct (get_variants_for_product (found_product_id info) s) as [s1 [e|vs]]; [done|].
  destruct (for_each active _ s1) as [s2 [e|[]]]; [done|]. by rewrite Hsame.
Qed.

Lemma process_product_same (pd : ProductData) (s : St W) :
  same_listing order order' →
  @process_product W _ order pd s = @process_product W _ order' pd s.
Proof.
  intros Hsame. unfold process_product.
  destruct (supplier_variants_active pd) as [|[first_sku h0] rest]; [done|].
  unfold bind. destruct (find_product_variant_by_sku first_sku s) as [s1 [e|[info|]]].
  - done.
  - by apply update_existing_same.
  - by rewrite create_product_same.
Qed.

Lemma run_full_sync_same (limit : option Z) (supplier : reply) (s : St W) :
  same_listing order order' →
  @run_full_sync W _ order limit supplier s = @run_full_sync W _ order' limit supplier s.
Proof.
  intros Hsame. unfold run_full_sync, try_finally, try_except, bind, lift.
  destruct (get_all_products supplier) as [e|all_products]; [done|].
  rewrite (for_each_same (@process_product W _ order) (@process_product W _ order')).
  - done.
  - intros pd s0. by apply process_product_same.
Qed.

End Listings.

(** A run with any listing of sets is the run with the listing settled on
    the sets of at most one element, which can be computed when no larger
    set is met. *)
Lemma run_full_sync_settled {W} `{!Library W} (order : Py.SetOrder)
    (limit : option Z) (supplier : reply) (s : St W) :
  @run_full_sync W _ order limit supplier s
  = @run_full_sync W _ (Py.settled order) limit supplier s.
Proof. apply run_full_sync_same, same_listing_settled. Qed.

Lemma process_product_settled {W} `{!Library W} (order : Py.SetOrder)
    (pd : ProductData) (s : St W) :
  @process_product W _ order pd s = @process_product W _ (Py.settled order) pd s.
Proof. apply process_product_same, same_listing_settled. Qed.

End RunFacts.

(* ===================================================================== *)
(** ** The calls made, whatever the outcome                               *)
(* ===================================================================== *)

Module OpsFacts.
Import ShopifyLib Effects PromoOption ShopifyClient SyncManager Props Shapes.
Import ClientFacts SyncFacts RunFacts.

Section Ops.
Context {W : Type} `{!Library W} `{!Py.SetOrder}.

Lemma find_ops (k : string) (s : St W) :
  ops (find_product_variant_by_sku k s).1 = ops s ++ [FindBySku k].
Proof.
  destruct (graphql_product_variants k (world s)) as [w [e|edges]] eqn:Hq.
  - by rewrite (find_raises _ _ _ _ Hq).
  - by rewrite (find_returns _ _ _ _ Hq).
Qed.

Lemma create_product_ops (pd : ProductData) (s : St W) :
  ops (create_product pd s).1 = ops s ++ [CreateProduct pd].
Proof.
  destruct (build_variants (hijos pd)) as [e|vs] eqn:Hb.
  - by rewrite (create_product_raises _ _ _ Hb).
  - by destruct (create_product_returns pd vs s Hb) as (r & lines & -> & _).
Qed.

(** A loop makes the calls of its passes, one after the other. *)
Lemma for_each_ops {A} (P : Op → Prop) (body : A → M W unit) (xs : list A) :
  (∀ x s, ∃ new, ops (body x s).1 = ops s ++ new ∧ Forall P new) →
  ∀ s, ∃ new, ops (for_each xs body s).1 = ops s ++ new ∧ Forall P new.
Proof.
  intros Hbody. induction xs as [|x xs IH]; intros s; cbn [for_each].
  - exists []. by rewrite app_nil_r.
  - destruct (Hbody x s) as (n1 & Hn1 & HP1). unfold bind.
    destruct (body x s) as [s1 [e|[]]]; simpl in *.
    + by exists n1.
    + destruct (IH s1) as (n2 & Hn2 & HP2). exists (n1 ++ n2).
      rewrite Hn2, Hn1, app_assoc. split; [done | by apply Forall_app].
Qed.

Lemma check_price_ops (by_sku : PyDict.t Variant) (item : string * Hijo) (s : St W) :
  ∃ new, ops (check_price by_sku item s).1 = ops s ++ new
         ∧ Forall (λ o, is_update o = true) new.
Proof.
  destruct item as [k h]. unfold check_price.
  destruct (PyDict.get k by_sku) as [v|]; [|exists []; by rewrite app_nil_r].
  unfold bind, lift, ret.
  destruct (new_price h) as [e|p]; [exists []; by rewrite app_nil_r|].
  destruct (Py.float_of _) as [e|c]; [exists []; by rewrite app_nil_r|].
  destruct (price_differs c p); [|exists []; by rewrite app_nil_r].
  destruct (update_variant_price_returns (id v) p s) as (w & b & lines & -> & _).
  exists [UpdatePrice (id v) p]. split; [done | by repeat constructor].
Qed.

Lemma delete_discontinued_ops (by_sku : PyDict.t Variant) (k : string) (s : St W) :
  ∃ new, ops (delete_discontinued by_sku k s).1 = ops s ++ new
         ∧ Forall (λ o, is_delete o = true) new.
Proof.
  unfold delete_discontinued.
  destruct (PyDict.get k by_sku) as [v|]; [|exists []; by rewrite app_nil_r].
  destruct (product_id v) as [pid|]; [|exists []; by rewrite app_nil_r].
  unfold bind, ret.
  destruct (delete_product_variant_returns pid (id v) s) as (w & b & lines & -> & _).
  exists [DeleteVariant pid (id v)]. split; [done | by repeat constructor].
Qed.

Lemma update_existing_ops (active : PyDict.t Hijo) (info : Found) (s : St W) :
  ∃ ups dels,
    ops (update_existing active info s).1
    = ops s ++ GetVariants (found_product_id info) :: ups ++ dels
    ∧ Forall (λ o, is_update o = true) ups
    ∧ Forall (λ o, is_delete o = true) dels.
Proof.
  unfold update_existing. unfold bind at 1.
  destruct (get_variants_for_product_returns (found_product_id info) s)
    as (w & vs & lines & -> & _).
  set (by_sku := PyDict.comprehension sku vs). set (s1 := mkSt w _ _).
  destruct (for_each_ops _ (check_price by_sku) active (check_price_ops by_sku) s1)
    as (ups & Hups & HPups).
  unfold bind.
  destruct (for_each active (check_price by_sku) s1) as [s2 [e|[]]]; simpl in *.
  - exists ups, []. rewrite Hups, app_nil_r, <- app_assoc. done.
  - destruct (for_each_ops _ (delete_discontinued by_sku)
                (Py.iterate [PyDict.keys by_sku; PyDict.keys active]
                   (skus_to_delete active by_sku))
                (delete_discontinued_ops by_sku) s2) as (dels & Hdels & HPdels).
    exists ups, dels. rewrite Hdels, Hups, <- !app_assoc. done.
Qed.

Lemma process_product_ops (pd : ProductData) (s : St W) :
  ∃ new, ops (process_product pd s).1 = ops s ++ new ∧ product_ops pd new.
Proof.
  unfold process_product, product_ops, probe_of.
  destruct (supplier_variants_active pd) as [|[first_sku h0] rest].
  - exists []. by rewrite app_nil_r.
  - unfold bind at 1. pose proof (find_ops first_sku s) as Hfind.
    destruct (find_product_variant_by_sku first_sku s) as [s1 [e|[info|]]]; simpl in *.
    + exists [FindBySku first_sku]. split; [done | by left].
    + destruct (update_existing_ops ((first_sku, h0) :: rest) info s1)
        as (ups & dels & Hops & Hups & Hdels).
      exists (FindBySku first_sku :: GetVariants (found_product_id info) :: ups ++ dels).
      rewrite Hops, Hfind, <- app_assoc. split; [done|]. right. right.
      by exists (found_product_id info), ups, dels.
    + unfold bind. pose proof (create_product_ops pd s1) as Hcreate.
      destruct (create_product pd s1) as [s2 [e|r]]; simpl in *.
      * exists [FindBySku first_sku; CreateProduct pd].
        rewrite Hcreate, Hfind, <- app_assoc. split; [done | right; by left].
      * exists [FindBySku first_sku; CreateProduct pd].
        rewrite Hcreate, Hfind, <- app_assoc. split; [done | right; by left].
Qed.

Lemma product_ops_no_close (pd : ProductData) (new : list Op) :
  product_ops pd new → Forall (λ o, o ≠ CloseSession) new.
Proof.
  unfold product_ops. destruct (probe_of pd) as [|k ?].
  - intros ->. constructor.
  - intros [->|[->|(pid & ups & dels & -> & Hups & Hdels)]].
    + by repeat constructor.
    + by repeat constructor.
    + constructor; [done|]. constructor; [done|]. apply Forall_app. split.
      * eapply Forall_impl; [exact Hups|]. by intros [] ?.
      * eapply Forall_impl; [exact Hdels|]. by intros [] ?.
Qed.

Lemma catalogue_loop_no_close (ps : list ProductData) (s : St W) :
  ∃ new, ops (for_each ps process_product s).1 = ops s ++ new
         ∧ Forall (λ o, o ≠ CloseSession) new.
Proof.
  apply for_each_ops. intros pd s0.
  destruct (process_product_ops pd s0) as (new & Hnew & Hshape).
  exists new. split; [done | by eapply product_ops_no_close].
Qed.

(** A loop that raises does so in one of its passes. *)
Lemma for_each_raises {A} (body : A → M W unit) (xs : list A) (s s' : St W) (e : Py.exn) :
  for_each xs body s = (s', inl e) → ∃ x s0, x ∈ xs ∧ body x s0 = (s', inl e).
Proof.
  revert s. induction xs as [|x xs IH]; intros s; cbn [for_each].
  - done.
  - unfold bind. destruct (body x s) as [s1 [e1|[]]] eqn:Hb.
    + intros [= <- <-]. exists x, s. split; [by left | done].
    + intros Hrest. destruct (IH _ Hrest) as (y & s0 & Hy & Hbody).
      exists y, s0. split; [by right | done].
Qed.

Lemma check_price_raises (by_sku : PyDict.t Variant) (k : string) (h : Hijo)
    (s s' : St W) (e : Py.exn) :
  check_price by_sku (k, h) s = (s', inl e) →
  ∃ v, PyDict.get k by_sku = Some v
       ∧ (new_price h = inl e ∨ Py.float_of (Py.VStr (price v)) = inl e).
Proof.
  unfold check_price. destruct (PyDict.get k by_sku) as [v|]; [|done].
  unfold bind, lift, ret.
  destruct (new_price h) as [e1|p] eqn:Hp.
  { intros [= _ <-]. exists v. split; [done | by left]. }
  destruct (Py.float_of (Py.VStr (price v))) as [e1|c] eqn:Hc.
  { intros [= _ <-]. exists v. split; [done | by right]. }
  destruct (price_differs c p); [|done].
  by destruct (update_variant_price_returns (id v) p s) as (w & b & lines & -> & _).
Qed.

(** A pass of the deletion loop over a SKU of the index raises only when
    the variant has no [product_id] to read. *)
Lemma delete_discontinued_raises_how (by_sku : PyDict.t Variant) (k : string)
    (s s' : St W) (e : Py.exn) :
  k ∈ PyDict.keys by_sku →
  delete_discontinued by_sku k s = (s', inl e) →
  e = Py.AttributeError ∧ ∃ v, PyDict.get k by_sku = Some v ∧ product_id v = None.
Proof.
  intros Hk. apply PyDictFacts.get_is_Some in Hk as [v Hv].
  unfold delete_discontinued. rewrite Hv.
  destruct (product_id v) as [pid|] eqn:Hpid.
  - unfold bind, ret.
    by destruct (delete_product_variant_returns pid (id v) s) as (w & b & lines & -> & _).
  - intros [= _ <-]. split; [done|]. by exists v.
Qed.

Lemma price_loop_without_index (active : PyDict.t Hijo) (s : St W) :
  for_each active (check_price []) s = (s, inr tt).
Proof.
  induction active as [|[k h] active IH]; [done|].
  cbn [for_each]. unfold bind. by rewrite check_price_absent.
Qed.

(** Printed lines are only ever added. *)
Lemma for_each_printed {A} (body : A → M W unit) (xs : list A) :
  (∀ x s, ∃ lines, printed (body x s).1 = printed s ++ lines) →
  ∀ s, ∃ lines, printed (for_each xs body s).1 = printed s ++ lines.
Proof.
  intros Hbody. induction xs as [|x xs IH]; intros s; cbn [for_each].
  - exists []. by rewrite app_nil_r.
  - destruct (Hbody x s) as (l1 & Hl1). unfold bind.
    destruct (body x s) as [s1 [e|[]]]; simpl in *.
    + by exists l1.
    + destruct (IH s1) as (l2 & Hl2). exists (l1 ++ l2). by rewrite Hl2, Hl1, app_assoc.
Qed.

Lemma check_price_printed (by_sku : PyDict.t Variant) (item : string * Hijo) (s : St W) :
  ∃ lines, printed (check_price by_sku item s).1 = printed s ++ lines.
Proof.
  destruct item as [k h]. unfold check_price.
  destruct (PyDict.get k by_sku) as [v|]; [|exists []; by rewrite app_nil_r].
  unfold bind, lift, ret.
  destruct (new_price h) as [e|p]; [exists []; by rewrite app_nil_r|].
  destruct (Py.float_of (Py.VStr (price v))) as [e|c]; [exists []; by rewrite app_nil_r|].
  destruct (price_differs c p); [|exists []; by rewrite app_nil_r].
  destruct (update_variant_price_returns (id v) p s) as (w & b & lines & -> & _).
  by exists lines.
Qed.

Lemma delete_discontinued_printed (by_sku : PyDict.t Variant) (k : string) (s : St W) :
  ∃ lines, printed (delete_discontinued by_sku k s).1 = printed s ++ lines.
Proof.
  unfold delete_discontinued.
  destruct (PyDict.get k by_sku) as [v|]; [|exists []; by rewrite app_nil_r].
  destruct (product_id v) as [pid|]; [|exists []; by rewrite app_nil_r].
  unfold bind, ret.
  destruct (delete_product_variant_returns pid (id v) s) as (w & b & lines & -> & _).
  by exists lines.
Qed.

Lemma update_existing_printed (active : PyDict.t Hijo) (info : Found) (s : St W) :
  ∃ lines, printed (update_existing active info s).1 = printed s ++ lines.
Proof.
  unfold update_existing. unfold bind at 1.
  destruct (get_variants_for_product_returns (found_product_id info) s)
    as (w & vs & l0 & -> & _).
  set (by_sku := PyDict.comprehension sku vs). set (s1 := mkSt w _ _).
  destruct (for_each_printed (check_price by_sku) active (check_price_printed by_sku) s1)
    as (l1 & Hl1).
  unfold bind.
  destruct (for_each active (check_price by_sku) s1) as [s2 [e|[]]]; simpl in *.
  - exists (l0 ++ l1). by rewrite Hl1, app_assoc.
  - destruct (for_each_printed (delete_discontinued by_sku)
                (Py.iterate [PyDict.keys by_sku; PyDict.keys active]
                   (skus_to_delete active by_sku))
                (delete_discontinued_printed by_sku) s2) as (l2 & Hl2).
    exists (l0 ++ l1 ++ l2). by rewrite Hl2, Hl1, !app_assoc.
Qed.

Lemma process_product_printed (pd : ProductData) (s : St W) :
  ∃ lines, printed (process_product pd s).1 = printed s ++ lines.
Proof.
  unfold process_product.
  destruct (supplier_variants_active pd) as [|[first_sku h0] rest].
  - by eexists.
  - unfold bind at 1.
    destruct (graphql_product_variants first_sku (world s)) as [w [e|edges]] eqn:Hq.
    { rewrite (find_raises _ _ _ _ Hq). by eexists. }
    rewrite (find_returns _ _ _ _ Hq). set (s1 := mkSt w _ _).
    destruct (found_of edges) as [info|].
    + apply (update_existing_printed _ info s1).
    + unfold bind. destruct (build_variants (hijos pd)) as [e|vs] eqn:Hb.
      * rewrite (create_product_raises _ _ _ Hb). exists []. simpl. by rewrite app_nil_r.
      * destruct (create_product_returns pd vs s1 Hb) as (r & lines & -> & _).
        by exists lines.
Qed.

Lemma catalogue_loop_printed (ps : list ProductData) (s : St W) :
  ∃ lines, printed (for_each ps process_product s).1 = printed s ++ lines.
Proof. apply for_each_printed, process_product_printed. Qed.

Lemma product_ops_probes (pd : ProductData) (new : list Op) :
  product_ops pd new → probes new = probe_of pd.
Proof.
  unfold product_ops. destruct (probe_of pd) as [|k rest] eqn:Hprobe.
  - by intros ->.
  - assert (rest = []) as ->.
    { unfold probe_of in Hprobe.
      destruct (supplier_variants_active pd) as [|[? ?] ?]; congruence. }
    intros [->|[->|(pid & ups & dels & -> & Hups & Hdels)]]; [done..|].
    simpl. f_equal. rewrite probes_app.
    assert (∀ l, Forall (λ o, is_update o = true) l ∨ Forall (λ o, is_delete o = true) l →
                 probes l = []) as Hnone.
    { intros l Hl. induction l as [|o l IH]; [done|]. simpl.
      rewrite IH.
      - destruct Hl as [Hl|Hl]; apply Forall_cons in Hl as [Ho _]; by destruct o.
      - destruct Hl as [Hl|Hl]; apply Forall_cons in Hl as [_ Hl]; by eauto. }
    rewrite !Hnone by eauto. done.
Qed.

(** The loop over the products probes the products it reaches, in order. *)
Lemma catalogue_loop_probes (ps : list ProductData) (s : St W) :
  ∃ reached rest,
    ps = reached ++ rest
    ∧ probes (ops (for_each ps process_product s).1)
      = probes (ops s) ++ expected_probes reached
    ∧ ((for_each ps process_product s).2 = inr tt → rest = []).
Proof.
  revert s. induction ps as [|pd ps IH]; intros s; cbn [for_each].
  - exists [], []. simpl. by rewrite app_nil_r.
  - destruct (process_product_ops pd s) as (new & Hnew & Hshape).
    apply product_ops_probes in Hshape. unfold bind.
    destruct (process_product pd s) as [s1 [e|[]]]; simpl in *.
    + exists [pd], ps. unfold expected_probes. simpl.
      rewrite Hnew, probes_app, Hshape, app_nil_r. done.
    + destruct (IH s1) as (reached & rest & -> & Hprobes & Hrest).
      exists (pd :: reached), rest. split; [done|]. split; [|done].
      rewrite Hprobes, Hnew, probes_app, Hshape, <- app_assoc. done.
Qed.

End Ops.

(** [float()] raises nothing but [OverflowError] past the handler of the
    price computation, and only on an integer. *)
Lemma new_price_raises (h : Hijo) (e : Py.exn) :
  new_price h = inl e →
  e = Py.OverflowError
  ∧ ∃ z, precio h = Some (Py.VInt z) ∧ Py.float_of_int z = inl Py.OverflowError.
Proof.
  unfold new_price. destruct (precio h) as [[| b | z | f | t |]|]; simpl; try done.
  - unfold Py.float_of_int.
    destruct (binary_normalize prec emax z 0 false) eqn:Hn; try done.
    intros [= <-]. split; [done|]. exists z. split; [done|].
    unfold Py.float_of_int. by rewrite Hn.
  - by destruct (Py.float_of_str t).
Qed.

Lemma build_variants_raises (hs : list Hijo) (e : Py.exn) :
  build_variants hs = inl e → ∃ h, h ∈ hs ∧ new_price h = inl e.
Proof.
  induction hs as [|h hs IH]; simpl; [done|].
  rewrite final_price_new_price.
  destruct (new_price h) as [e1|p] eqn:Hp.
  - intros [= <-]. exists h. split; [by left | done].
  - destruct (build_variants hs) as [e1|vs]; [|done].
    intros [= <-]. destruct (IH eq_refl) as (h' & Hin & Hh').
    exists h'. split; [by right | done].
Qed.

Lemma shop_price_raises (text : string) (e : Py.exn) :
  Py.float_of (Py.VStr text) = inl e → e = Py.ValueError ∧ Py.float_of_str text = None.
Proof. simpl. destruct (Py.float_of_str text); [done|]. by intros [= <-]. Qed.

End OpsFacts.

(* ===================================================================== *)
(** ** Facts about the texts of prices and identifiers                    *)
(* ===================================================================== *)

Module TextFacts.
Import Shapes.

Lemma is_digit_plain (c : ascii) :
  Py.is_digit c = true →
  c ≠ "_"%char ∧ c ≠ "-"%char ∧ c ≠ "+"%char ∧ c ≠ "."%char
  ∧ Py.is_space c = false ∧ Py.lower c = c ∧ Ascii.eqb c "i" = false
  ∧ Ascii.eqb c "n" = false ∧ Ascii.eqb c "_" = false.
Proof.
  destruct c as [[] [] [] [] [] [] [] []]; vm_compute; intros Hd;
    try discriminate Hd; repeat split; discriminate.
Qed.

Lemma is_digit_ascii (c : ascii) : Py.is_digit c = true → Py.is_ascii_byte c = true.
Proof.
  destruct c as [[] [] [] [] [] [] [] []]; vm_compute; intros Hd;
    try discriminate Hd; reflexivity.
Qed.

(** A text of ASCII characters is read as it is. *)
Lemma transformed_ascii (l : list ascii) :
  Forall (λ c, Py.is_ascii_byte c = true) l →
  Py.transformed (string_of_list_ascii l) = l.
Proof.
  intros Hl. unfold Py.transformed. rewrite list_ascii_of_string_of_list_ascii.
  assert (forallb Py.is_ascii_byte l = true) as ->; [|done].
  induction Hl as [|c l Hc _ IH]; simpl; [done|]. by rewrite Hc, IH.
Qed.

Lemma digit_of_N (k : N) : (k < 10)%N → Py.is_digit (ascii_of_N (48 + k)) = true.
Proof.
  intros Hk.
  assert (k = 0 ∨ k = 1 ∨ k = 2 ∨ k = 3 ∨ k = 4 ∨ k = 5 ∨ k = 6 ∨ k = 7 ∨ k = 8 ∨ k = 9)%N
    as Hcases by lia.
  repeat destruct Hcases as [->|Hcases]; try reflexivity. by subst.
Qed.

Lemma digits_fuel_digits (fuel : nat) (n : N) (acc : list ascii) :
  Forall (λ c, Py.is_digit c = true) acc →
  Forall (λ c, Py.is_digit c = true) (Py.digits_fuel fuel n acc).
Proof.
  revert n acc. induction fuel as [|fuel IH]; intros n acc Hacc; simpl; [done|].
  assert (Py.is_digit (ascii_of_N (48 + n mod 10)) = true) as Hd.
  { apply digit_of_N. by apply N.mod_lt. }
  destruct (n <? 10)%N; [by constructor|]. apply IH. by constructor.
Qed.

Lemma digits_fuel_nonempty (fuel : nat) (n : N) (acc : list ascii) :
  Py.digits_fuel (S fuel) n acc ≠ [].
Proof.
  revert n acc. induction fuel as [|fuel IH]; intros n acc.
  - simpl. by destruct (n <? 10)%N.
  - change (Py.digits_fuel (S (S fuel)) n acc)
      with (let d := ascii_of_N (48 + n mod 10) in
            if (n <? 10)%N then d :: acc
            else Py.digits_fuel (S fuel) (n / 10)%N (d :: acc)).
    simpl. destruct (n <? 10)%N; [done | apply IH].
Qed.

Lemma digits_digits (n : N) :
  Forall (λ c, Py.is_digit c = true) (Py.digits n) ∧ Py.digits n ≠ [].
Proof.
  split; [by apply digits_fuel_digits | apply digits_fuel_nonempty].
Qed.

Lemma pad2_digits (n : N) :
  Forall (λ c, Py.is_digit c = true) (Py.pad2 n) ∧ Py.pad2 n ≠ [].
Proof.
  unfold Py.pad2. destruct (digits_digits n) as [Hd Hne].
  destruct (n <? 10)%N; [|done]. split; [by constructor | done].
Qed.

Lemma drop_underscores_plain (l : list ascii) (prev : option ascii) :
  Forall (λ c, c ≠ "_"%char) l → prev ≠ Some "_"%char →
  Py.drop_underscores prev l = Some l.
Proof.
  intros Hl. revert prev. induction Hl as [|c l Hc _ IH]; intros prev Hprev.
  - destruct prev as [[[] [] [] [] [] [] [] []]|]; try reflexivity. by destruct Hprev.
  - assert (Ascii.eqb c "_" = false) as Hcb by by apply Ascii.eqb_neq.
    assert (Py.drop_underscores prev (c :: l)
            = option_map (cons c) (Py.drop_underscores (Some c) l)) as ->.
    { simpl. rewrite Hcb.
      destruct prev as [[[] [] [] [] [] [] [] []]|]; try reflexivity. by destruct Hprev. }
    rewrite IH; [done|]. by intros [= ->].
Qed.

Lemma strip_plain (c d : ascii) (l l' : list ascii) :
  Py.is_space c = false → Py.is_space d = false → c :: l = l' ++ [d] →
  Py.strip (c :: l) = c :: l.
Proof.
  intros Hc Hd Heq. unfold Py.strip. simpl. rewrite Hc.
  rewrite Heq, rev_app_distr. simpl. rewrite Hd.
  change (d :: rev l') with (rev [d] ++ rev l'). by rewrite <- rev_app_distr, rev_involutive.
Qed.

Lemma read_digits_run (run rest : list ascii) (acc : N) (count : nat) :
  Forall (λ c, Py.is_digit c = true) run →
  match rest with [] => True | c :: _ => Py.is_digit c = false end →
  ∃ v, Py.read_digits (run ++ rest) acc count = (v, (count + length run)%nat, rest).
Proof.
  intros Hrun Hrest. revert acc count.
  induction Hrun as [|c run Hc _ IH]; intros acc count; cbn [app length].
  - exists acc. rewrite Nat.add_0_r. destruct rest as [|c rest]; [done|].
    cbn [Py.read_digits]. by rewrite Hrest.
  - cbn [Py.read_digits]. rewrite Hc. destruct (IH (acc * 10 + Py.digit_val c)%N (S count)) as [v ->].
    exists v. do 2 f_equal. lia.
Qed.

Lemma read_sign_digit (c : ascii) (l : list ascii) :
  Py.is_digit c = true → Py.read_sign (c :: l) = (false, c :: l).
Proof.
  destruct c as [[] [] [] [] [] [] [] []]; vm_compute; intros Hd;
    try discriminate Hd; reflexivity.
Qed.

Lemma chars_eqb_digit (c : ascii) (l : list ascii) (t : string) :
  Py.is_digit c = true →
  Py.chars_eqb (c :: l) (list_ascii_of_string (String "i" t)) = false
  ∧ Py.chars_eqb (c :: l) (list_ascii_of_string (String "n" t)) = false.
Proof.
  intros Hc. apply is_digit_plain in Hc as (_ & _ & _ & _ & _ & _ & Hi & Hn & _).
  unfold Py.chars_eqb. simpl. by rewrite Hi, Hn.
Qed.

(** A text of the shape [[-]digits.digits] is read by [float()]. *)
Lemma float_of_str_fixed (neg : bool) (whole frac : list ascii) :
  Forall (λ c, Py.is_digit c = true) whole → whole ≠ [] →
  Forall (λ c, Py.is_digit c = true) frac → frac ≠ [] →
  ∃ y, Py.float_of_str
         (string_of_list_ascii
            ((if neg then ["-"%char] else []) ++ whole ++ "."%char :: frac)) = Some y.
Proof.
  intros Hwhole Hw Hfrac Hf.
  destruct whole as [|w whole]; [done|]. clear Hw.
  apply Forall_cons in Hwhole as [Hwd Hwhole].
  destruct (exists_last Hf) as (frac' & d & Hlast).
  assert (Py.is_digit d = true) as Hd.
  { rewrite Hlast in Hfrac. apply Forall_app in Hfrac as [_ Hdd]. by apply Forall_cons in Hdd as [? _]. }
  pose proof (is_digit_plain w Hwd) as (Hw1 & Hw2 & Hw3 & Hw4 & Hw5 & Hw6 & _).
  pose proof (is_digit_plain d Hd) as (_ & _ & _ & _ & Hd5 & _).
  set (body := w :: whole ++ "."%char :: frac).
  change ((w :: whole) ++ "."%char :: frac) with body.
  assert (Forall (λ c, Py.lower c = c ∧ c ≠ "_"%char) body) as Hbody.
  { unfold body. constructor; [done|]. apply Forall_app. split.
    - eapply Forall_impl; [exact Hwhole|]. intros c Hc.
      by apply is_digit_plain in Hc as (? & _ & _ & _ & _ & ? & _).
    - constructor; [done|]. eapply Forall_impl; [exact Hfrac|]. intros c Hc.
      by apply is_digit_plain in Hc as (? & _ & _ & _ & _ & ? & _). }
  assert (map Py.lower body = body) as Hlower.
  { clear -Hbody. induction Hbody as [|c l [Hc _] _ IH]; simpl; [done|]. by rewrite Hc, IH. }
  assert (∃ y, (let '(ip, ic, l1) := Py.read_digits body 0 0 in
                let '(m, fc, l2) :=
                  match l1 with
                  | "."%char :: r => let '(m, fc, l2) := Py.read_digits r ip 0 in (m, fc, l2)
                  | _ => (ip, O, l1)
                  end in
                match (ic + fc)%nat with
                | O => None
                | S _ =>
                    match Py.read_exponent l2 with
                    | None => None
                    | Some e => Some (Py.float_of_decimal neg m (e - Z.of_nat fc))
                    end
                end) = Some y) as [y Hy].
  { destruct (read_digits_run (w :: whole) ("."%char :: frac) 0 0) as [ip Hip].
    { by constructor. } { reflexivity. }
    change ((w :: whole) ++ "."%char :: frac) with body in Hip. rewrite Hip.
    destruct (read_digits_run frac [] ip 0 Hfrac I) as [m Hm].
    rewrite app_nil_r in Hm. cbv iota beta. rewrite Hm. simpl. by eexists. }
  exists y. unfold Py.float_of_str. rewrite transformed_ascii.
  2:{ apply Forall_app. split; [destruct neg; by repeat constructor|].
      constructor; [by apply is_digit_ascii|]. apply Forall_app. split.
      - eapply Forall_impl; [exact Hwhole|]. apply is_digit_ascii.
      - constructor; [done|]. eapply Forall_impl; [exact Hfrac|]. apply is_digit_ascii. }
  rewrite drop_underscores_plain; [|
    apply Forall_app; split;
      [destruct neg; repeat constructor; done
      | eapply Forall_impl; [exact Hbody | by intros c [_ ?]]]
    | done].
  assert (∃ last_part, body = last_part ++ [d]) as [last_part Hsplit].
  { unfold body. rewrite Hlast. exists (w :: whole ++ "."%char :: frac').
    simpl. by rewrite <- app_assoc. }
  destruct (chars_eqb_digit w (whole ++ "."%char :: frac) "nf" Hwd) as [Hinf _].
  destruct (chars_eqb_digit w (whole ++ "."%char :: frac) "nfinity" Hwd) as [Hinfinity _].
  destruct (chars_eqb_digit w (whole ++ "."%char :: frac) "an" Hwd) as [_ Hnan].
  change (w :: whole ++ "."%char :: frac) with body in Hinf, Hinfinity, Hnan.
  destruct neg; cbn [app].
  - assert (Py.strip ("-"%char :: body) = "-"%char :: body) as ->.
    { apply (strip_plain _ d _ ("-"%char :: last_part)); [done..|].
      simpl. by rewrite Hsplit. }
    cbn [Py.read_sign]. rewrite Hlower, Hinf, Hinfinity, Hnan. exact Hy.
  - assert (Py.strip body = body) as ->.
    { apply (strip_plain _ d _ last_part); done. }
    assert (Py.read_sign body = (false, body)) as -> by by apply read_sign_digit.
    rewrite Hlower, Hinf, Hinfinity, Hnan. exact Hy.
Qed.

(** Every text [f"{x:.2f}"] makes is read by [float()]. *)
Lemma float_of_str_format_2f (x : float) : ∃ y, Py.float_of_str (Py.format_2f x) = Some y.
Proof.
  assert (∀ neg cents, ∃ y, Py.float_of_str (Py.fixed2 neg cents) = Some y) as Hfixed.
  { intros neg cents. unfold Py.fixed2.
    destruct (digits_digits (cents / 100)) as [? ?].
    destruct (pad2_digits (cents mod 100)) as [? ?].
    by apply float_of_str_fixed. }
  unfold Py.format_2f. destruct (Prim2SF x) as [neg|[]| |neg m e].
  - apply Hfixed.
  - by eexists.
  - by eexists.
  - by eexists.
  - apply Hfixed.
Qed.

(** *** [split('/')[-1]] *)

Lemma list_ascii_of_string_app (a b : string) :
  list_ascii_of_string (String.append a b) = list_ascii_of_string a ++ list_ascii_of_string b.
Proof. induction a as [|c a IH]; simpl; [done | by rewrite IH]. Qed.

Lemma segment_fold_plain (l acc : list ascii) :
  Forall (λ c, c ≠ "/"%char) l →
  fold_left (λ acc c, if Ascii.eqb c "/" then [] else acc ++ [c]) l acc = acc ++ l.
Proof.
  intros Hl. revert acc. induction Hl as [|c l Hc _ IH]; intros acc; simpl.
  - by rewrite app_nil_r.
  - rewrite (proj2 (Ascii.eqb_neq _ _) Hc), IH, <- app_assoc. done.
Qed.

Lemma segment_fold_slash (l1 l2 acc : list ascii) :
  fold_left (λ acc c, if Ascii.eqb c "/" then [] else acc ++ [c]) (l1 ++ "/"%char :: l2) acc
  = fold_left (λ acc c, if Ascii.eqb c "/" then [] else acc ++ [c]) l2 [].
Proof. by rewrite fold_left_app. Qed.

End TextFacts.

(* ===================================================================== *)
(** ** The properties of the specification                                *)
(* ===================================================================== *)

Module Spec.
Import ShopifyLib Effects PromoOption ShopifyClient SyncManager Props Shapes.
Import ClientFacts SyncFacts RunFacts OpsFacts Samples.

(** *** Pricing *)

(** C1: for a numeric base price the sale price is
    [base_price * 0.77 / 0.60], which is also
    [base_price * (1 - 0.23) / (1 - 0.40)]; both [create_product] and
    [run_full_sync] compute it unrounded; the comparison with the shop's
    price uses the unrounded value; the text with two decimals is only
    made where the price is sent: [update_variant_price] saves the variant
    it found with that text as its price and nothing else changed, and
    [create_product] hands the library a product whose variant for the
    child carries that text. *)
Theorem C1_sale_price_rounded_only_when_sent (hijo : Hijo) (base_price : float)
    (Hnumeric : Py.float_of (default (Py.VInt 0) (precio hijo)) = inr base_price) :
  let sale := (base_price * 0.77 / 0.60)%float in
  sale = (base_price * (1 - 0.23) / (1 - 0.40))%float
  ∧ final_price hijo = inr sale
  ∧ new_price hijo = inr sale
  ∧ (∀ before after vs,
       build_variants (before ++ hijo :: after) = inr vs →
       nv_price <$> vs !! length before = Some (Py.format_2f sale))
  ∧ (∀ W (L : Library W) by_sku v current (s : St W),
       PyDict.get (skuHijo hijo) by_sku = Some v →
       Py.float_of (Py.VStr (price v)) = inr current →
       check_price by_sku (skuHijo hijo, hijo) s
       = if (0.01 <? PrimFloat.abs (current - sale))%float
         then ((update_variant_price (id v) sale s).1, inr tt)
         else (s, inr tt))
  ∧ (∀ W (L : Library W) vid (s : St W) w v,
       variant_find vid (world s) = (w, inr v) →
       world (update_variant_price vid sale s).1
       = (variant_save (with_price v (Py.format_2f sale)) w).1
       ∧ price (with_price v (Py.format_2f sale)) = Py.format_2f sale
       ∧ id (with_price v (Py.format_2f sale)) = id v
       ∧ sku (with_price v (Py.format_2f sale)) = sku v
       ∧ product_id (with_price v (Py.format_2f sale)) = product_id v
       ∧ option1 (with_price v (Py.format_2f sale)) = option1 v)
  ∧ (∀ W (L : Library W) (order : Py.SetOrder) product_data before after vs (s : St W),
       hijos product_data = before ++ hijo :: after →
       build_variants (hijos product_data) = inr vs →
       world (create_product product_data s).1
       = (product_save (new_product product_data vs) (world s)).1
       ∧ np_variants (new_product product_data vs) = vs
       ∧ vs !! length before = Some (new_variant hijo sale)
       ∧ nv_price (new_variant hijo sale) = Py.format_2f sale).
Proof.
  intros sale.
  assert (final_price hijo = inr sale) as Hfinal.
  { unfold final_price. by rewrite Hnumeric. }
  assert (new_price hijo = inr sale) as Hnew.
  { by rewrite <- final_price_new_price. }
  assert (∀ before after vs,
            build_variants (before ++ hijo :: after) = inr vs →
            vs !! length before = Some (new_variant hijo sale)) as Hbuilt.
  { intros before after vs. rewrite build_variants_app. simpl. rewrite Hfinal.
    destruct (build_variants before) as [e|va] eqn:Hb; [done|].
    destruct (build_variants after) as [e|vb]; [done|].
    intros [= <-]. apply build_variants_length in Hb.
    by rewrite (list_lookup_middle va vb _ (length before)). }
  split; [reflexivity|]. split; [done|]. split; [done|]. split; [|split; [|split]].
  - intros before after vs Hvs. by rewrite (Hbuilt before after vs Hvs).
  - intros W L by_sku v current s Hg Hc. by apply check_price_present.
  - intros W L vid s w v Hfind. split; [|done].
    unfold update_variant_price, bind, emit, try_except, call, print, ret. simpl.
    rewrite Hfind. simpl.
    by destruct (variant_save (with_price v (Py.format_2f sale)) w) as [w2 [e|[|]]].
  - intros W L order product_data before after vs s Hhijos Hvs. split; [|split; [done|split]].
    + by destruct (create_product_returns product_data vs s Hvs) as (r & lines & -> & _).
    + apply (Hbuilt before after). by rewrite <- Hhijos.
    + reflexivity.
Qed.

Lemma C1_witness :
  Py.float_of (Py.VStr "100.00") = inr 100%float
  ∧ final_price (hijo "S1" "1" "100.00" []) = inr (100 * 0.77 / 0.60)%float
  ∧ Py.format_2f (100 * 0.77 / 0.60) = "128.33"%string.
Proof.
  split; [reflexivity|]. split; [|reflexivity].
  exact (proj1 (proj2 (C1_sale_price_rounded_only_when_sent
                         (hijo "S1" "1" "100.00" []) 100%float eq_refl))).
Defined.

(** C8: a supplier variant whose price is missing or does not parse as a
    number gets the price 0.0, in [create_product] and in
    [run_full_sync] alike; it is sent as ["0.00"]; the variant is built and
    compared like any other, nothing is raised. *)
Theorem C8_missing_or_unparsable_price_is_zero (hijo : Hijo) (Hbad : unpriced hijo) :
  final_price hijo = inr 0%float
  ∧ new_price hijo = inr 0%float
  ∧ nv_price (new_variant hijo 0) = "0.00"%string
  ∧ (∀ rest, build_variants (hijo :: rest)
             = match build_variants rest with
               | inl e => inl e
               | inr vs => inr (new_variant hijo 0 :: vs)
               end)
  ∧ (∀ W (L : Library W) by_sku v current (s : St W),
       PyDict.get (skuHijo hijo) by_sku = Some v →
       Py.float_of (Py.VStr (price v)) = inr current →
       check_price by_sku (skuHijo hijo, hijo) s
       = if (0.01 <? PrimFloat.abs (current - 0))%float
         then ((update_variant_price (id v) 0 s).1, inr tt)
         else (s, inr tt)).
Proof.
  assert (final_price hijo = inr 0%float) as Hfinal.
  { unfold final_price, unpriced in *. destruct (precio hijo) as [v|]; simpl.
    - by destruct Hbad as [-> | ->].
    - reflexivity. }
  assert (new_price hijo = inr 0%float) as Hnew.
  { by rewrite <- final_price_new_price. }
  split; [done|]. split; [done|]. split; [reflexivity|]. split.
  - intros rest. simpl. by rewrite Hfinal.
  - intros W L by_sku v current s Hg Hc. by apply check_price_present.
Qed.

Lemma C8_witness :
  unpriced (hijo "U2" "1" "consultar" [])
  ∧ final_price (hijo "U2" "1" "consultar" []) = inr 0%float.
Proof.
  assert (unpriced (hijo "U2" "1" "consultar" [])) as Hbad by (left; reflexivity).
  split; [exact Hbad|].
  exact (proj1 (C8_missing_or_unparsable_price_is_zero _ Hbad)).
Defined.

(** *** The sync orchestrator *)

(** C10: a product limit of 0 is not a limit: the run is the run without a
    limit, where the slice [all_products[:0]] would have been empty; the
    loop body is applied to the products of the whole catalogue, in order,
    and the run ends as that loop ends; every product is reached unless a
    critical error is printed. *)
Theorem C10_limit_zero_is_no_limit {W} `{!Library W} `{!Py.SetOrder}
    (supplier : reply) (s : St W) (all_products : list ProductData) :
  let s' := (run_full_sync (Some 0%Z) (Body (Py.VBool true) (Some all_products)) s).1 in
  run_full_sync (Some 0%Z) supplier s = run_full_sync None supplier s
  ∧ products_to_process (Some 0%Z) all_products = all_products
  ∧ slice_to all_products 0 = []
  ∧ (∀ s1 r, for_each all_products process_product s = (s1, r) →
             run_full_sync (Some 0%Z) (Body (Py.VBool true) (Some all_products)) s
             = (closed_after s1 r, inr tt))
  ∧ ∃ reached rest,
      all_products = reached ++ rest
      ∧ probes (ops s') = probes (ops s) ++ expected_probes reached
      ∧ (critical_errors (printed s') = critical_errors (printed s) → rest = []).
Proof.
  intros s'. split; [done|]. split; [done|]. split; [done|]. split.
  - intros s1 r Hloop. by apply run_full_sync_loop.
  - destruct (catalogue_loop_probes all_products s) as (reached & rest & Hsplit & Hprobes & Hrest).
    destruct (catalogue_loop_printed all_products s) as (lines & Hlines).
    exists reached, rest. split; [done|]. unfold s'. clear s'.
    destruct (for_each all_products process_product s) as [s1 r] eqn:Hloop.
    rewrite (run_full_sync_loop (Some 0%Z) all_products s s1 r Hloop).
    unfold closed_after. simpl in *. split.
    + by rewrite probes_app, Hprobes, app_nil_r.
    + destruct r as [e|[]].
      * rewrite Hlines, !critical_errors_app. simpl. intros Hsame.
        apply (f_equal length) in Hsame. rewrite !length_app in Hsame. simpl in Hsame. lia.
      * intros _. by apply Hrest.
Qed.

(** C6: a supplier product none of whose children is active is skipped:
    no call is made on the client, the shop is as it was, only the line
    that tells the skip is printed. *)
Theorem C6_no_active_variant_no_operation {W} `{!Library W} `{!Py.SetOrder}
    (product_data : ProductData) (s : St W)
    (Hnone : Forall (λ h, is_active h = false) (hijos product_data)) :
  process_product product_data s
  = (mkSt (world s) (ops s) (printed s ++ [SkippingNoActive (nombrePadre product_data)]),
     inr tt).
Proof.
  apply supplier_variants_active_nil in Hnone.
  unfold process_product. by rewrite Hnone.
Qed.

Lemma C6_witness :
  Forall (λ h, is_active h = false) (hijos taza)
  ∧ @process_product _ _ Py.in_code_order taza (MemShop.start empty_shop)
    = (mkSt empty_shop [] [SkippingNoActive (Some "TAZA"%string)], inr tt).
Proof.
  assert (Forall (λ h, is_active h = false) (hijos taza)) as Hnone
    by (repeat constructor).
  split; [exact Hnone|].
  exact (@C6_no_active_variant_no_operation _ _ Py.in_code_order taza
           (MemShop.start empty_shop) Hnone).
Defined.

(** *** Creating a product *)


(** *** Reconciling an existing product *)

(** C4: in the pass over a product found in the shop, whose variants were
    fetched and whose prices convert, the calls made are the probe, the
    fetch, then the price updates, then deletions only; the price updates
    are, in the order of the active supplier SKUs, one for each active SKU
    that is in the shop's SKU index and whose current price differs from
    the freshly computed one by more than 0.01, with the id of the shop
    variant and the computed price, and none for any other SKU; what an
    update returns, and what the deletion loop does, does not change
    them. *)
Theorem C4_price_update_iff_beyond_tolerance {W} `{!Library W} `{!Py.SetOrder}
    (product_data : ProductData) (s : St W) (first_sku : string) (h0 : Hijo)
    (rest : PyDict.t Hijo) (w w1 : W) (edges : list Edge)
    (existing_product_info : Found) (product : Product)
    (Hactive : supplier_variants_active product_data = (first_sku, h0) :: rest)
    (Hlookup : graphql_product_variants first_sku (world s) = (w, inr edges))
    (Hfound : found_of edges = Some existing_product_info)
    (Hfetch : product_find (found_product_id existing_product_info) w = (w1, inr product))
    (Hprices : prices_convert (supplier_variants_active product_data)
                 (PyDict.comprehension sku (variants product))) :
  let shopify_variants_by_sku := PyDict.comprehension sku (variants product) in
  (∃ dels,
     ops (process_product product_data s).1
     = ops s ++ FindBySku first_sku :: GetVariants (found_product_id existing_product_info)
               :: flat_map (spec_price_update shopify_variants_by_sku)
                    (supplier_variants_active product_data)
               ++ dels
     ∧ Forall (λ o, is_delete o = true) dels)
  ∧ (∀ item shopify_variant computed current,
       PyDict.get item.1 shopify_variants_by_sku = Some shopify_variant →
       new_price item.2 = inr computed →
       Py.float_of (Py.VStr (price shopify_variant)) = inr current →
       (spec_price_update shopify_variants_by_sku item
        = [UpdatePrice (id shopify_variant) computed]
        ↔ (0.01 <? PrimFloat.abs (current - computed))%float = true)
       ∧ (spec_price_update shopify_variants_by_sku item = []
          ↔ (0.01 <? PrimFloat.abs (current - computed))%float = false))
  ∧ (∀ item, PyDict.get item.1 shopify_variants_by_sku = None →
             spec_price_update shopify_variants_by_sku item = []).
Proof.
  intros by_sku. split; [|split].
  - destruct (existing_product_pass product_data first_sku h0 rest s w w1 edges
                existing_product_info product Hactive Hlookup Hfound Hfetch Hprices)
      as (s2 & [Hops _] & Heq).
    rewrite Heq. clear Heq. fold by_sku.
    destruct (for_each_ops (λ o, is_delete o = true) (delete_discontinued by_sku)
                (Py.iterate [PyDict.keys by_sku;
                             PyDict.keys (supplier_variants_active product_data)]
                   (skus_to_delete (supplier_variants_active product_data) by_sku))
                (delete_discontinued_ops by_sku) s2) as (dels & Hdels & HPdels).
    exists dels. split; [|done]. rewrite Hdels, Hops, <- app_assoc. done.
  - intros item v computed current Hg Hn Hc. unfold spec_price_update.
    rewrite Hg, Hn, Hc. by destruct (0.01 <? PrimFloat.abs (current - computed))%float.
  - intros item Hg. unfold spec_price_update. by rewrite Hg.
Qed.

Lemma C4_witness :
  let s := MemShop.start (MemShop.shop_with [vaso_in_shop "150.00"] 1000) in
  let by_sku := PyDict.comprehension sku (map MemShop.listed (variants (vaso_in_shop "150.00"))) in
  prices_convert (supplier_variants_active vaso) by_sku
  ∧ flat_map (spec_price_update by_sku) (supplier_variants_active vaso)
    = [UpdatePrice "71" (100 * 0.77 / 0.60)]
  ∧ (0.01 <? PrimFloat.abs (150 - 100 * 0.77 / 0.60))%float = true
  ∧ ∃ dels,
      ops (@process_product _ _ Py.in_code_order vaso s).1
      = [] ++ FindBySku "S1" :: GetVariants "7"
           :: flat_map (spec_price_update by_sku) (supplier_variants_active vaso) ++ dels
      ∧ Forall (λ o, is_delete o = true) dels.
Proof.
  intros s by_sku.
  assert (prices_convert (supplier_variants_active vaso) by_sku) as Hprices.
  { constructor; [|constructor; [|constructor]]; simpl; intros v Hv.
    - injection Hv as <-. split; eexists; reflexivity.
    - discriminate Hv. }
  split; [exact Hprices|]. split; [reflexivity|]. split; [reflexivity|].
  exact (proj1 (@C4_price_update_iff_beyond_tolerance _ _ Py.in_code_order vaso s
                  "S1" (hijo "S1" "1" "100.00" ["B"; "C"]%string)
                  [("S2"%string, hijo "S2" "1" "200.00" [])]
                  (MemShop.shop_with [vaso_in_shop "150.00"] 1000)
                  (MemShop.shop_with [vaso_in_shop "150.00"] 1000)
                  [MemShop.edge_of (shop_variant "71" "7" "S1" "150.00")]
                  {| variant_id := "71"; found_product_id := "7"; found_price := "150.00" |}
                  (MemShop.with_listed_variants (vaso_in_shop "150.00"))
                  eq_refl eq_refl eq_refl eq_refl Hprices)).
Defined.

(** C5 on the scenario of the specification: the shop holds S1 at the
    matching price and a variant S3 that is not an active supplier SKU.
    The SKUs to delete are the set difference, S3 alone; but no
    [DeleteVariant] call is made: the variants fetched with the product
    have no [product_id] attribute, reading it raises [AttributeError],
    which ends the run as a critical error; S3 stays in the shop. *)
Theorem C5_no_variant_is_deleted :
  ∀ order : Py.SetOrder,
    let shop := MemShop.shop_with [vaso_in_shop "128.33"] 1000 in
    let s' := (run_full_sync None (catalogue [vaso]) (MemShop.start shop)).1 in
    PyDict.keys (supplier_variants_active vaso) = ["S1"; "S2"]%string
    ∧ map sku (MemShop.all_variants shop) = ["S1"; "S3"]%string
    ∧ skus_to_delete (supplier_variants_active vaso)
        (PyDict.comprehension sku (MemShop.all_variants shop)) = {["S3"%string]}
    ∧ ops s' = [FindBySku "S1"; GetVariants "7"; CloseSession]
    ∧ printed s' = [CriticalError Py.AttributeError]
    ∧ map sku (MemShop.all_variants (world s')) = ["S1"; "S3"]%string.
Proof.
  intros order. cbv zeta. rewrite !(run_full_sync_settled order).
  split; [reflexivity|]. split; [reflexivity|]. split; [by vm_compute|].
  vm_compute. done.
Qed.

(** *** Failures *)




(** *** Creation and the second run *)

(** C2 on a product with one active and one inactive child, absent from
    the shop: one [CreateProduct] call is made, and the product it stores
    has a variant for both children, the inactive one included. *)
Theorem C2_created_product_keeps_inactive_variants :
  ∀ order : Py.SetOrder,
    let s' := (run_full_sync None (catalogue [termo]) (MemShop.start empty_shop)).1 in
    ops s' = [FindBySku "T1"; CreateProduct termo; CloseSession]
    ∧ creations (ops s') = [termo]
    ∧ PyDict.keys (supplier_variants_active termo) = ["T1"]%string
    ∧ map sku (MemShop.all_variants (world s')) = ["T1"; "T2"]%string.
Proof. intros order. cbv zeta. rewrite !(run_full_sync_settled order). vm_compute. done. Qed.

(** C7 on the same product: the first run creates it with both variants,
    so that the shop's SKUs and the active supplier SKUs are not the same
    set; the second run, on the shop the first one left and with the same
    catalogue, finds the variant of the inactive child to delete, and ends
    on the [AttributeError] of the deletion, printed as critical; the
    variant stays. *)
Theorem C7_second_run_finds_a_variant_to_delete :
  ∀ order : Py.SetOrder,
    let first := (run_full_sync None (catalogue [termo]) (MemShop.start empty_shop)).1 in
    let second := (run_full_sync None (catalogue [termo]) (MemShop.start (world first))).1 in
    ops first = [FindBySku "T1"; CreateProduct termo; CloseSession]
    ∧ printed first = []
    ∧ map sku (MemShop.all_variants (world first)) = ["T1"; "T2"]%string
    ∧ PyDict.keys (supplier_variants_active termo) = ["T1"]%string
    ∧ skus_to_delete (supplier_variants_active termo)
        (PyDict.comprehension sku (MemShop.all_variants (world first))) = {["T2"%string]}
    ∧ ops second = [FindBySku "T1"; GetVariants "1000"; CloseSession]
    ∧ printed second = [CriticalError Py.AttributeError]
    ∧ map sku (MemShop.all_variants (world second)) = ["T1"; "T2"]%string.
Proof. intros order. cbv zeta. rewrite !(run_full_sync_settled order). vm_compute. done. Qed.

(** *** The scenarios of the specification, run on the reference shop *)

(** Two active variants priced 100.00 and 200.00, no match in the shop:
    one creation, with the prices 128.33 and 256.67. *)
Example scenario_create (order : Py.SetOrder) :
  let s' := (run_full_sync None (catalogue [vaso]) (MemShop.start empty_shop)).1 in
  ops s' = [FindBySku "S1"; CreateProduct vaso; CloseSession]
  ∧ map (λ v, (sku v, price v)) (MemShop.all_variants (world s'))
    = [("S1", "128.33"); ("S2", "256.67")]%string.
Proof. cbv zeta. rewrite !(run_full_sync_settled order). vm_compute. done. Qed.

(** The shop has S1 at 150.00 and a variant S3 to delete: one update,
    handed the unrounded price and stored as 128.33, then the run ends on
    the deletion. *)
Example scenario_update (order : Py.SetOrder) :
  let shop := MemShop.shop_with [vaso_in_shop "150.00"] 1000 in
  let s' := (run_full_sync None (catalogue [vaso]) (MemShop.start shop)).1 in
  ops s' = [FindBySku "S1"; GetVariants "7"; UpdatePrice "71" (100 * 0.77 / 0.60);
            CloseSession]
  ∧ Py.format_2f (100 * 0.77 / 0.60) = "128.33"%string
  ∧ map (λ v, (sku v, price v)) (MemShop.all_variants (world s'))
    = [("S1", "128.33"); ("S3", "10.00")]%string.
Proof. cbv zeta. rewrite !(run_full_sync_settled order). vm_compute. done. Qed.

(** When all the children of a product are active, the run after the one
    that created it finds nothing to update or delete. *)
Example second_run_is_quiet_when_all_children_are_active (order : Py.SetOrder) :
  let first := (run_full_sync None (catalogue [vaso]) (MemShop.start empty_shop)).1 in
  let second := (run_full_sync None (catalogue [vaso]) (MemShop.start (world first))).1 in
  ops second = [FindBySku "S1"; GetVariants "1000"; CloseSession]
  ∧ printed second = [].
Proof. cbv zeta. rewrite !(run_full_sync_settled order). vm_compute. done. Qed.

(** Parent images A, B and child images B, C: the three records A, B, C,
    once each, in some order. *)
Example scenario_images (order : Py.SetOrder) :
  unique_images vaso ≡ₚ [image_of "A"; image_of "B"; image_of "C"].
Proof.
  apply NoDup_Permutation.
  - apply Py.iterate_NoDup.
  - repeat (apply NoDup_cons; split; [set_solver|]). apply NoDup_nil_2.
  - intros img. unfold unique_images. rewrite Py.iterate_elem_of, elem_of_list_to_set.
    simpl. set_solver.
Qed.

(** The computed price is not rounded: 100.00 gives 128.33333333333334. *)
Example sale_price_is_not_rounded :
  new_price (hijo "S1" "1" "100.00" []) = inr 128.33333333333334%float
  ∧ Py.float_of_str "128.33" ≠ Some 128.33333333333334%float.
Proof. split; [reflexivity|]. vm_compute. discriminate. Qed.

(** Missing and unparsable prices: the product is created all the same,
    with the price 0.00. *)
Example scenario_unpriced (order : Py.SetOrder) :
  let s' := (run_full_sync None (catalogue [pluma]) (MemShop.start empty_shop)).1 in
  map (λ v, (sku v, price v)) (MemShop.all_variants (world s'))
  = [("U1", "0.00"); ("U2", "0.00")]%string.
Proof. cbv zeta. rewrite !(run_full_sync_settled order). vm_compute. done. Qed.

(** A limit of 0 on a catalogue of two products: both are reached. *)
Example limit_zero_runs_the_catalogue (order : Py.SetOrder) :
  let s' := (run_full_sync (Some 0%Z) (catalogue [taza; termo]) (MemShop.start empty_shop)).1 in
  ops s' = [FindBySku "T1"; CreateProduct termo; CloseSession]
  ∧ printed s' = [SkippingNoActive (Some "TAZA"%string)].
Proof. cbv zeta. rewrite !(run_full_sync_settled order). vm_compute. done. Qed.

(** A price written with full-width digits, or after a no-break space, is
    a number for [float()]. *)
Example prices_in_other_scripts :
  Py.float_of_str (String "239" (String "188" (String "145"
                     (String "239" (String "188" (String "146" ""))))))
  = Some 12%float
  ∧ Py.float_of_str (String "194" (String "160" "100.00")) = Some 100%float.
Proof. split; reflexivity. Qed.

End Spec.

(* ===================================================================== *)
(** ** Further properties of the code                                     *)
(* ===================================================================== *)

Module More.
Import ShopifyLib Effects PromoOption ShopifyClient SyncManager Props Shapes.
Import ClientFacts SyncFacts RunFacts OpsFacts TextFacts Samples.

(** *** The run as a whole *)

(** X1: [run_full_sync] never raises, whatever the supplier answers and
    whatever the shop does, and it closes the session exactly once, as its
    last call. *)
Theorem run_full_sync_always_closes_the_session {W} `{!Library W} `{!Py.SetOrder}
    (product_limit : option Z) (supplier : reply) (s : St W) :
  ∃ s' before,
    run_full_sync product_limit supplier s = (s', inr tt)
    ∧ ops s' = ops s ++ before ++ [CloseSession]
    ∧ Forall (λ o, o ≠ CloseSession) before.
Proof.
  unfold run_full_sync, try_finally, try_except. unfold bind at 1. unfold lift at 1.
  destruct (get_all_products supplier) as [e|all_products].
  - eexists _, []. simpl. by repeat split.
  - destruct (catalogue_loop_no_close (products_to_process product_limit all_products) s)
      as (new & Hnew & Hno).
    destruct (for_each _ process_product s) as [s1 [e|[]]]; simpl in *.
    + eexists _, new. by rewrite Hnew, app_assoc.
    + eexists _, new. by rewrite Hnew, app_assoc.
Qed.

(** X2: when the catalogue cannot be fetched (the request raised, or the
    body's ["success"] is not the boolean [True]), no product is processed:
    the error is printed as critical, the only call made is
    [close_session], and the shop is otherwise left alone. *)
Theorem failed_fetch_only_closes_the_session {W} `{!Library W} `{!Py.SetOrder}
    (product_limit : option Z) (supplier : reply) (e : Py.exn) (s : St W)
    (Hfetch : get_all_products supplier = inl e) :
  run_full_sync product_limit supplier s
  = (mkSt (clear_session (world s)) (ops s ++ [CloseSession])
          (printed s ++ [CriticalError e]), inr tt).
Proof.
  unfold run_full_sync, try_finally, try_except, bind, lift, print, close_session, emit.
  simpl. by rewrite Hfetch.
Qed.

Lemma failed_fetch_witness :
  get_all_products (Body (Py.VInt 1) (Some [vaso]))
  = inl (Py.OtherError "API returned an error")
  ∧ ops (@run_full_sync _ _ Py.in_code_order None (Body (Py.VInt 1) (Some [vaso]))
           (MemShop.start empty_shop)).1
    = [CloseSession].
Proof.
  split; [reflexivity|].
  by rewrite (@failed_fetch_only_closes_the_session _ _ Py.in_code_order None
                (Body (Py.VInt 1) (Some [vaso]))
                (Py.OtherError "API returned an error") (MemShop.start empty_shop) eq_refl).
Defined.

(** X3: the products processed are always a prefix of the catalogue; a
    positive limit [n] keeps the first [n] (all of them when there are
    fewer), a negative limit [-k] keeps all but the last [k] (none when
    there are fewer). *)
Theorem limit_takes_a_prefix (product_limit : option Z) (all_products : list ProductData) :
  (∃ rest, all_products = products_to_process product_limit all_products ++ rest)
  ∧ Z.of_nat (length (products_to_process product_limit all_products))
    = match product_limit with
      | None => Z.of_nat (length all_products)
      | Some n =>
          if (n =? 0)%Z then Z.of_nat (length all_products)
          else if (0 <? n)%Z then Z.min n (Z.of_nat (length all_products))
          else Z.max 0 (Z.of_nat (length all_products) + n)
      end.
Proof.
  destruct product_limit as [n|]; simpl.
  - destruct (Z.eqb_spec n 0) as [->|Hn].
    + split; [exists []; by rewrite app_nil_r | done].
    + unfold slice_to. destruct (Z.leb_spec 0 n), (Z.ltb_spec 0 n); try lia.
      * split; [eexists; symmetry; apply take_drop|]. rewrite length_take. lia.
      * split; [eexists; symmetry; apply take_drop|]. rewrite length_take. lia.
  - split; [exists []; by rewrite app_nil_r | done].
Qed.

(** X4: what one pass of the loop body may call: nothing for a product
    without an active variant; otherwise one probe of the first active SKU,
    followed by nothing (the probe raised), or by exactly one creation and
    nothing else, or by the fetch of the variants, then only price updates,
    then only deletions.  In particular an existing product is never
    created again and never gets a variant added, and all updates come
    before all deletions. *)
Theorem product_pass_shape {W} `{!Library W} `{!Py.SetOrder} (product_data : ProductData) (s : St W) :
  ∃ new, ops (process_product product_data s).1 = ops s ++ new
         ∧ product_ops product_data new.
Proof. apply process_product_ops. Qed.

(** *** The two SKU indexes *)

(** X5: the dictionaries built by comprehension keep, for a SKU that occurs
    several times, the last entry: the price of a SKU is taken from the
    last active child that carries it, and the shop variant compared and
    deleted for a SKU is the last one fetched with it.  The SKU probed is
    that of the first active child. *)
Theorem sku_indexes_keep_the_last_entry (product_data : ProductData)
    (shopify_variants : list Variant) (k : string) :
  PyDict.get k (supplier_variants_active product_data)
  = last (filter (λ h, skuHijo h = k) (List.filter is_active (hijos product_data)))
  ∧ PyDict.get k (PyDict.comprehension sku shopify_variants)
    = last (filter (λ v, sku v = k) shopify_variants)
  ∧ probe_of product_data
    = match List.filter is_active (hijos product_data) with
      | [] => []
      | h :: _ => [skuHijo h]
      end.
Proof.
  assert (∀ A (key : A → string) (xs : list A) (d : PyDict.t A),
            PyDict.get k (fold_left (λ d x, PyDict.set (key x) x d) xs d)
            = match last (filter (λ x, key x = k) xs) with
              | Some v => Some v
              | None => PyDict.get k d
              end) as Hlast.
  { intros A key xs. induction xs as [|x xs IH]; intros d; simpl; [done|].
    rewrite IH, PyDictFacts.get_set, filter_cons.
    destruct (decide (key x = k)) as [Hk|Hk].
    - rewrite (proj2 (String.eqb_eq _ _) Hk).
      destruct (filter (λ x, key x = k) xs) as [|y ys] eqn:Hf; [done|].
      rewrite !last_cons. by destruct (last ys).
    - by rewrite (proj2 (String.eqb_neq _ _) Hk). }
  assert (∀ A (key : A → string) (xs : list A) (k0 : string) (v0 : A) (d : PyDict.t A),
            ∃ v d', fold_left (λ d x, PyDict.set (key x) x d) xs ((k0, v0) :: d)
                    = (k0, v) :: d') as Hhead.
  { intros A key xs. induction xs as [|x xs IH]; intros k0 v0 d; simpl; [by eauto|].
    destruct (String.eqb k0 (key x)); apply IH. }
  split; [|split].
  - unfold supplier_variants_active, PyDict.comprehension. rewrite Hlast.
    by destruct (last _).
  - unfold PyDict.comprehension. rewrite Hlast. by destruct (last _).
  - unfold probe_of, supplier_variants_active, PyDict.comprehension.
    destruct (List.filter is_active (hijos product_data)) as [|h hs]; [done|]. simpl.
    by destruct (Hhead _ skuHijo hs (skuHijo h) h []) as (v & d' & ->).
Qed.

(** *** Creation *)

(** X6: when the prices of all children convert, [create_product] hands
    the library one product, whose variants are the children, all of them
    and in their order: each with the child's SKU and colour, the price
    text of the child, stock managed by the shop and a quantity of 0. *)
Theorem created_product_has_a_variant_per_child {W} `{!Library W} `{!Py.SetOrder}
    (product_data : ProductData) (vs : list NewVariant) (s : St W)
    (Hbuilt : build_variants (hijos product_data) = inr vs) :
  world (create_product product_data s).1
  = (product_save (new_product product_data vs) (world s)).1
  ∧ Forall2 (λ hijo nv, ∃ p, final_price hijo = inr p ∧ nv = new_variant hijo p)
      (hijos product_data) (np_variants (new_product product_data vs))
  ∧ map nv_sku vs = map skuHijo (hijos product_data)
  ∧ Forall (λ nv, nv_inventory_management nv = "shopify"%string
                  ∧ nv_inventory_quantity nv = 0%Z) vs.
Proof.
  split; [|split; [|split]].
  - by destruct (create_product_returns product_data vs s Hbuilt) as (r & lines & -> & _).
  - simpl. clear s. revert vs Hbuilt.
    induction (hijos product_data) as [|h hs IH]; simpl; intros vs.
    + intros [= <-]. constructor.
    + destruct (final_price h) as [e|p] eqn:Hp; [done|].
      destruct (build_variants hs) as [e|vs']; [done|].
      intros [= <-]. constructor; [by exists p | by apply IH].
  - by apply build_variants_skus.
  - clear s. revert vs Hbuilt.
    induction (hijos product_data) as [|h hs IH]; simpl; intros vs.
    + intros [= <-]. constructor.
    + destruct (final_price h) as [e|p]; [done|].
      destruct (build_variants hs) as [e|vs']; [done|].
      intros [= <-]. constructor; [done | by apply IH].
Qed.

Lemma created_product_witness :
  build_variants (hijos termo)
  = inr [new_variant (hijo "T1" "1" "100.00" []) (100 * 0.77 / 0.60);
         new_variant (hijo "T2" "0" "50.00" []) (50 * 0.77 / 0.60)]
  ∧ map nv_sku [new_variant (hijo "T1" "1" "100.00" []) (100 * 0.77 / 0.60);
                new_variant (hijo "T2" "0" "50.00" []) (50 * 0.77 / 0.60)]
    = ["T1"; "T2"]%string.
Proof.
  split; [reflexivity|].
  exact (proj1 (proj2 (proj2
           (@created_product_has_a_variant_per_child _ _ Py.in_code_order termo _
              (MemShop.start empty_shop) eq_refl)))).
Defined.

(** *** What goes wrong, and what then happens *)

(** X7: when the variants of the product found cannot be fetched, the
    product is left as it is: the failure is printed, no price is updated,
    no variant is deleted, and the run goes on. *)
Theorem failed_variant_fetch_changes_nothing {W} `{!Library W} `{!Py.SetOrder}
    (supplier_variants_active : PyDict.t Hijo) (existing_product_info : Found)
    (s : St W) (w : W) (e : Py.exn)
    (Hfetch : product_find (found_product_id existing_product_info) (world s) = (w, inl e)) :
  update_existing supplier_variants_active existing_product_info s
  = (mkSt w (ops s ++ [GetVariants (found_product_id existing_product_info)])
          (printed s ++ [FetchVariantsRaised (found_product_id existing_product_info) e]),
     inr tt).
Proof.
  unfold update_existing. unfold bind at 1.
  destruct (get_variants_for_product_returns (found_product_id existing_product_info) s)
    as (w' & vs & lines & -> & _ & Hfind).
  rewrite Hfetch in Hfind. destruct Hfind as (-> & -> & ->).
  unfold bind. cbn [PyDict.comprehension fold_left].
  rewrite price_loop_without_index.
  rewrite iterate_empty; [done|].
  unfold skus_to_delete. simpl. set_solver.
Qed.

Lemma failed_variant_fetch_witness :
  let L := FrozenShop.frozen_library [] in
  @update_existing unit L Py.in_code_order (SyncManager.supplier_variants_active vaso)
    {| variant_id := "71"; found_product_id := "7"; found_price := "150.00" |}
    (mkSt tt [] [])
  = (mkSt tt [GetVariants "7"]
          [FetchVariantsRaised "7" (Py.OtherError "resource not found")], inr tt).
Proof.
  exact (@failed_variant_fetch_changes_nothing unit (FrozenShop.frozen_library [])
           Py.in_code_order (SyncManager.supplier_variants_active vaso)
           {| variant_id := "71"; found_product_id := "7"; found_price := "150.00" |}
           (mkSt tt [] []) tt (Py.OtherError "resource not found") eq_refl).
Defined.

(** X8: the loop body raises in four cases only: the probe raised (the
    same exception goes on); a child's price is an integer too large for a
    float ([OverflowError], which the handler of the price computation
    does not cover); a variant fetched from the shop has a price text that
    is no number ([ValueError]); a variant fetched from the shop whose SKU
    is not an active supplier SKU has no [product_id] to read
    ([AttributeError]). *)
Theorem what_makes_the_loop_body_raise {W} `{!Library W} `{!Py.SetOrder}
    (product_data : ProductData) (s s' : St W) (e : Py.exn)
    (Hraised : process_product product_data s = (s', inl e)) :
  (∃ first_sku w, probe_of product_data = [first_sku]
                  ∧ graphql_product_variants first_sku (world s) = (w, inl e))
  ∨ (e = Py.OverflowError
     ∧ ∃ h z, h ∈ hijos product_data ∧ precio h = Some (Py.VInt z)
              ∧ Py.float_of_int z = inl Py.OverflowError)
  ∨ (e = Py.ValueError
     ∧ ∃ pid w0 w1 p v, product_find pid w0 = (w1, inr p) ∧ v ∈ variants p
                        ∧ Py.float_of_str (price v) = None)
  ∨ (e = Py.AttributeError
     ∧ ∃ pid w0 w1 p v, product_find pid w0 = (w1, inr p) ∧ v ∈ variants p
                        ∧ product_id v = None
                        ∧ sku v ∉ PyDict.keys (supplier_variants_active product_data)).
Proof.
  revert Hraised. unfold process_product, probe_of.
  destruct (supplier_variants_active product_data) as [|[first_sku h0] rest] eqn:Hact.
  { done. }
  unfold bind at 1.
  destruct (graphql_product_variants first_sku (world s)) as [w [e1|edges]] eqn:Hq.
  { rewrite (find_raises _ _ _ _ Hq). intros [= _ <-]. left. by eauto. }
  rewrite (find_returns _ _ _ _ Hq). set (s1 := mkSt w _ _).
  destruct (found_of edges) as [info|].
  - unfold update_existing. unfold bind at 1.
    destruct (get_variants_for_product_returns (found_product_id info) s1)
      as (w' & vs & lines & -> & _ & Hfind).
    set (by_sku := PyDict.comprehension sku vs). set (s2 := mkSt w' _ _).
    assert (∀ v, v ∈ vs →
              ∃ w2 p, product_find (found_product_id info) (world s1) = (w2, inr p)
                      ∧ v ∈ variants p) as Hfetched.
    { intros v Hv.
      destruct (product_find (found_product_id info) (world s1)) as [w2 [e2|p]] eqn:Hp.
      - destruct Hfind as (_ & -> & _). by apply elem_of_nil in Hv.
      - destruct Hfind as (_ & -> & _). by exists w2, p. }
    unfold bind.
    destruct (for_each _ (check_price by_sku) s2) as [s3 [e1|[]]] eqn:Hloop.
    + intros [= _ <-]. apply for_each_raises in Hloop as ([k h] & s0 & Hin & Hbody).
      apply check_price_raises in Hbody as (v & Hv & [Hnew|Hcur]).
      * right. left. apply new_price_raises in Hnew as (-> & z & Hz & Hover).
        split; [done|]. exists h, z. split; [|done].
        rewrite <- Hact in Hin. by apply supplier_variants_active_elem_of in Hin as (? & _).
      * right. right. left. apply shop_price_raises in Hcur as (-> & Hnone).
        split; [done|]. apply PyDictFacts.comprehension_get in Hv as [Hv _].
        destruct (Hfetched v Hv) as (w2 & p & Hp & Hin').
        by exists (found_product_id info), (world s1), w2, p, v.
    + intros Hdel. apply for_each_raises in Hdel as (k & s0 & Hk & Hbody).
      apply Py.iterate_elem_of, skus_to_delete_spec in Hk as [Hk Hnot].
      apply (delete_discontinued_raises_how _ _ _ _ _ Hk) in Hbody as (-> & v & Hv & Hpid).
      right. right. right. split; [done|].
      apply PyDictFacts.comprehension_get in Hv as [Hv Hsku].
      destruct (Hfetched v Hv) as (w2 & p & Hp & Hin').
      exists (found_product_id info), (world s1), w2, p, v.
      split; [done|]. split; [done|]. split; [done|]. by rewrite Hsku.
  - unfold bind.
    destruct (build_variants (hijos product_data)) as [e1|vs] eqn:Hb.
    + rewrite (create_product_raises _ _ _ Hb). intros [= _ <-].
      apply build_variants_raises in Hb as (h & Hin & Hnew).
      apply new_price_raises in Hnew as (-> & z & Hz & Hover).
      right. left. split; [done|]. by exists h, z.
    + by destruct (create_product_returns product_data vs s1 Hb) as (r & lines & -> & _).
Qed.

Lemma what_makes_the_loop_body_raise_witness :
  @process_product _ _ Py.in_code_order lingote (MemShop.start empty_shop)
  = (mkSt empty_shop [FindBySku "L1"; CreateProduct lingote] [], inl Py.OverflowError)
  ∧ ∃ h z, h ∈ hijos lingote ∧ precio h = Some (Py.VInt z)
           ∧ Py.float_of_int z = inl Py.OverflowError.
Proof.
  assert (@process_product _ _ Py.in_code_order lingote (MemShop.start empty_shop)
          = (mkSt empty_shop [FindBySku "L1"; CreateProduct lingote] [],
             inl Py.OverflowError)) as Hraised by (vm_compute; reflexivity).
  split; [exact Hraised|].
  destruct (what_makes_the_loop_body_raise lingote _ _ _ Hraised)
    as [(k & w & _ & Hq)|[[_ Hchild]|[[He _]|[He _]]]].
  - vm_compute in Hq. discriminate Hq.
  - exact Hchild.
  - discriminate He.
  - discriminate He.
Defined.

(** *** Texts *)

(** X9: every price text this code sends is one that [float()] reads: the
    text [update_variant_price] stores in a variant and the text
    [create_product] gives a new variant never make the price comparison
    of a later run raise [ValueError]. *)
Theorem sent_price_texts_are_numeric (x : float) (variant : Variant) (hijo : Hijo) :
  numeric_price (with_price variant (Py.format_2f x))
  ∧ ∃ c, Py.float_of (Py.VStr (nv_price (new_variant hijo x))) = inr c.
Proof.
  destruct (float_of_str_format_2f x) as [y Hy].
  split; exists y; simpl; by rewrite Hy.
Qed.

(** X10: [find_product_variant_by_sku] reduces a global id to its last
    path segment: for a text without [/] after the last [/] of the id,
    that text; for an id without any [/], the id itself; for an id ending
    in [/], the empty text. *)
Theorem last_segment_of_a_path (path name : string) (Hname : no_slash name) :
  last_segment (String.append path (String "/" name)) = name
  ∧ last_segment name = name
  ∧ last_segment (String.append path "/") = ""%string.
Proof.
  unfold last_segment, no_slash in *. split; [|split].
  - rewrite list_ascii_of_string_app. simpl list_ascii_of_string.
    rewrite segment_fold_slash, segment_fold_plain by done. simpl.
    apply string_of_list_ascii_of_string.
  - rewrite segment_fold_plain by done. simpl. apply string_of_list_ascii_of_string.
  - rewrite list_ascii_of_string_app. simpl list_ascii_of_string.
    by rewrite segment_fold_slash.
Qed.

Lemma last_segment_witness :
  no_slash "42"
  ∧ last_segment "gid://shopify/ProductVariant/42" = "42"%string.
Proof.
  assert (no_slash "42") as Hname by (repeat constructor; discriminate).
  split; [exact Hname|].
  exact (proj1 (last_segment_of_a_path "gid://shopify/ProductVariant" "42" Hname)).
Defined.

(** *** Deletions, once applied *)

(** X11: the SKUs to delete are never active supplier SKUs, and once the
    variants under those SKUs are gone from the list the shop returns, the
    same computation finds nothing more to delete. *)
Theorem nothing_left_to_delete (supplier_variants_active : PyDict.t Hijo)
    (shopify_variants : list Variant) :
  let doomed :=
    skus_to_delete supplier_variants_active (PyDict.comprehension sku shopify_variants) in
  let remaining := filter (λ v, sku v ∉ doomed) shopify_variants in
  (∀ k, k ∈ doomed → k ∉ PyDict.keys supplier_variants_active)
  ∧ skus_to_delete supplier_variants_active (PyDict.comprehension sku remaining) = ∅.
Proof.
  intros doomed remaining.
  assert (∀ k, k ∈ doomed ↔ (∃ v, v ∈ shopify_variants ∧ sku v = k)
                            ∧ k ∉ PyDict.keys supplier_variants_active) as Hdoomed.
  { intros k. unfold doomed. rewrite skus_to_delete_spec.
    by rewrite PyDictFacts.comprehension_keys. }
  split; [intros k Hk; by apply Hdoomed in Hk as [_ ?]|].
  apply set_eq. intros k. rewrite skus_to_delete_spec.
  rewrite PyDictFacts.comprehension_keys. split; [|by intros ?%elem_of_empty].
  intros [(v & Hv & <-) Hact]. unfold remaining in Hv.
  apply list_elem_of_filter in Hv as [Hkeep Hv]. exfalso. apply Hkeep.
  apply Hdoomed. split; [by exists v | done].
Qed.

(** *** Construction *)



(** *** Order of processing *)

(** X13: a run over a fetched catalogue probes the products of a prefix of
    the list to process, in the order of the list, each product with an
    active variant once and with its first active SKU; it reaches the whole
    list unless a critical error was printed. *)
Theorem run_probes_a_prefix_in_order {W} `{!Library W} `{!Py.SetOrder}
    (product_limit : option Z) (catalog : list ProductData) (s : St W) :
  let s' := (run_full_sync product_limit (Body (Py.VBool true) (Some catalog)) s).1 in
  ∃ reached rest,
    products_to_process product_limit catalog = reached ++ rest
    ∧ probes (ops s') = probes (ops s) ++ expected_probes reached
    ∧ (critical_errors (printed s') = critical_errors (printed s) → rest = []).
Proof.
  intros s'.
  destruct (catalogue_loop_probes (products_to_process product_limit catalog) s)
    as (reached & rest & Hsplit & Hprobes & Hrest).
  destruct (catalogue_loop_printed (products_to_process product_limit catalog) s)
    as (lines & Hlines).
  exists reached, rest. split; [done|]. unfold s'. clear s'.
  destruct (for_each (products_to_process product_limit catalog) process_product s)
    as [s1 [e|[]]] eqn:Hloop; simpl in *.
  - rewrite (run_full_sync_aborts _ _ _ _ _ Hloop). simpl. split.
    + by rewrite probes_app, Hprobes, app_nil_r.
    + rewrite Hlines, !critical_errors_app. simpl. intros Hsame.
      apply (f_equal length) in Hsame. rewrite !length_app in Hsame. simpl in Hsame. lia.
  - rewrite (run_full_sync_completes _ _ _ _ Hloop). simpl. split.
    + by rewrite probes_app, Hprobes, app_nil_r.
    + intros _. by apply Hrest.
Qed.

End More.
